(** * DataBot: agent with tools and persistent conversation history

    A shallow embedding of [agente_basico_hc_base_de_conocimiento.py].

    The program talks to three external services: the chat model
    ([chat_con_tools.invoke]), the registered tools ([t.invoke]) and the
    PostgreSQL table behind [PostgresChatMessageHistory].  None of them is
    part of the repository, so each is an oracle over an abstract external
    state [Env]: an oracle reads the state, answers (a value or a Python
    exception) and leaves a new state, which lets the model be
    non-deterministic and the tools stateful.  The rows of the history table
    are kept explicitly, and every call to the model, every tool
    invocation, every database operation and every printed line is recorded
    in a trace, in program order.

    Python code is embedded in a state-and-exception monad [M]: an exception
    keeps the state reached so far, exactly as a raise leaves the rows
    already inserted. *)

From stdpp Require Import base strings list gmap.

(** ** Data model *)

(** A Python exception object (a subclass of [Exception]): its class name
    and [str(e)]. *)
Record PyExc := mkExc { exc_type : string; exc_str : string }.

(** The [args] dict of a tool call: a JSON object. *)
Definition Args := list (string * string).

(** One entry of [response.tool_calls]: [tool_call["name"]],
    [tool_call["args"]], and [tool_call["id"]], the identifier the model
    gives the request. *)
Record ToolCall := mkToolCall {
  tc_name : string;
  tc_args : Args;
  tc_id : string
}.

(** [langchain_core.messages]: the message classes that can sit in a stored
    history or in a request context. *)
Inductive BaseMessage :=
| HumanMessage (content : string)
| AIMessage (content : string) (tool_calls : list ToolCall)
| ToolMessage (content : string) (tool_call_id : string)
| SystemMessage (content : string).

(** The [AIMessage] returned by [chat_con_tools.invoke]: the two attributes
    the program reads. *)
Record ModelResponse := mkResponse {
  content : string;
  tool_calls : list ToolCall
}.

Definition response_message (response : ModelResponse) : BaseMessage :=
  AIMessage (content response) (tool_calls response).

(** An element of the [messages] list handed to the model: either a dict
    [{"role": r, "content": c}] or a message object. *)
Inductive ContextItem :=
| Dict (role : string) (content : string)
| Obj (m : BaseMessage).

(** An element of [tool_results]:
    [{"tool_call_id": ..., "result": ...}]. *)
Record ToolResult := mkToolResult {
  tool_call_id : string;
  result : string
}.

(** Operations sent to PostgreSQL through psycopg. *)
Inductive PgOp :=
| PgConnect
| PgCreateTables (table_name : string)
| PgClose
| PgSelect (table_name session_id : string)
| PgInsert (table_name session_id : string) (m : BaseMessage).

(** What the program does to the outside, in program order. *)
Inductive Event :=
| EModel (messages : list ContextItem) (r : PyExc + ModelResponse)
| ETool (tool_call : ToolCall) (r : PyExc + string)
| EPg (op : PgOp) (r : option PyExc)
| EPrint (line : string).

(** The requests whose tool was invoked, in invocation order. *)
Definition invoked (evs : list Event) : list ToolCall :=
  omap (fun ev => match ev with ETool tc _ => Some tc | _ => None end) evs.

(** The tool invocations with what each gave, in invocation order. *)
Definition invocations (evs : list Event) : list (ToolCall * (PyExc + string)) :=
  omap (fun ev => match ev with ETool tc r => Some (tc, r) | _ => None end) evs.

(** The contexts submitted to the model, in call order. *)
Definition submitted (evs : list Event) : list (list ContextItem) :=
  omap (fun ev => match ev with EModel ms _ => Some ms | _ => None end) evs.

(** What the model calls gave, in call order. *)
Definition completions (evs : list Event) : list (PyExc + ModelResponse) :=
  omap (fun ev => match ev with EModel _ r => Some r | _ => None end) evs.

(** The rows sent to the history table, accepted or not, in order. *)
Definition sent (evs : list Event) : list BaseMessage :=
  omap (fun ev => match ev with EPg (PgInsert _ _ m) _ => Some m | _ => None end) evs.

(** A model call or a tool invocation raised. *)
Definition call_failed (ev : Event) : bool :=
  match ev with
  | EModel _ (inl _) | ETool _ (inl _) => true
  | _ => false
  end.

(** A tool invocation raised. *)
Definition tool_failed (ev : Event) : bool :=
  match ev with ETool _ (inl _) => true | _ => false end.

(** A database operation raised. *)
Definition pg_failed (ev : Event) : bool :=
  match ev with EPg _ (Some _) => true | _ => false end.

(** The exceptions the external calls raised, in order. *)
Definition raised (evs : list Event) : list PyExc :=
  omap (fun ev =>
          match ev with
          | EModel _ (inl e) | ETool _ (inl e) | EPg _ (Some e) => Some e
          | _ => None
          end) evs.

(** ** The monad *)

Inductive Outcome (A : Type) :=
| Ok (a : A)
| Raise (e : PyExc).
Arguments Ok {A} a.
Arguments Raise {A} e.

(** ** 4. The agent's prompt *)

(** The double-quote character. *)
Definition dq : string := String (Ascii.ascii_of_nat 34) EmptyString.

Definition system_prompt : string :=
  "Eres DataBot, un asistente de IA de DATAPATH.

Tu objetivo es ayudar a los usuarios respondiendo sus preguntas.

INSTRUCCIONES:
- Para preguntas sobre DATAPATH (programas, cursos, precios, docentes), USA la herramienta buscar_datapath.
- Para saludos, agradecimientos o conversación general, responde directamente SIN usar herramientas.
- Recuerdas toda la conversación gracias a tu memoria persistente.
- Responde siempre en español de manera clara y amigable.

EJEMPLOS de cuándo NO usar herramientas:
- " +:+ dq +:+
  "Hola" +:+ dq +:+
  " → Responde con un saludo
- " +:+ dq +:+
  "Gracias" +:+ dq +:+
  " → Responde amablemente
- " +:+ dq +:+
  "¿Cómo estás?" +:+ dq +:+
  " → Responde conversacionalmente

EJEMPLOS de cuándo SÍ usar buscar_datapath:
- " +:+ dq +:+
  "¿Qué cursos tienen?" +:+ dq +:+
  " → Usa buscar_datapath
- " +:+ dq +:+
  "¿Cuánto cuesta el programa de IA?" +:+ dq +:+
  " → Usa buscar_datapath
- " +:+ dq +:+
  "¿Quiénes son los docentes?" +:+ dq +:+
  " → Usa buscar_datapath".

Section Agent.

Context {Env : Type}.

(** A registered tool: [t.name] and [t.invoke]. *)
Record Tool := mkTool {
  name : string;
  invoke : Args -> Env -> (PyExc + string) * Env
}.

Record World := mkWorld {
  env : Env;
  (** rows of [chat_history_datapath_rag_tools], per session, oldest first *)
  table : gmap string (list BaseMessage);
  trace : list Event
}.

Definition M (A : Type) : Type := World -> Outcome A * World.

#[global] Instance M_ret : MRet M := fun A a w => (Ok a, w).

#[global] Instance M_bind : MBind M := fun A B k m w =>
  match m w with
  | (Ok a, w') => k a w'
  | (Raise e, w') => (Raise e, w')
  end.

(** [try: m  except Exception as e: h e] *)
Definition try_except {A} (m : M A) (h : PyExc -> M A) : M A := fun w =>
  match m w with
  | (Ok a, w') => (Ok a, w')
  | (Raise e, w') => h e w'
  end.

Definition emit (ev : Event) (w : World) : World :=
  mkWorld (env w) (table w) (trace w ++ [ev]).

Definition print (line : string) : M unit := fun w =>
  (Ok tt, emit (EPrint line) w).

(** ** The external services *)

(** [chat_con_tools.invoke]. *)
Variable chat_con_tools : list ContextItem -> Env -> (PyExc + ModelResponse) * Env.
(** The module-level list [tools]. *)
Variable tools : list Tool.
(** The database driver: whether an operation raises. *)
Variable psycopg : PgOp -> Env -> option PyExc * Env.
(** The builtin [input(prompt)]: the line read, or an exception. *)
Variable input : string -> Env -> (PyExc + string) * Env.
(** [str.strip] and [str.lower]. *)
Variable strip lower : string -> string.
(** The [uuid] module: the class [UUID] with its parser ([None] when
    [uuid.UUID(s)] raises [ValueError], the one exception it raises on a
    string), [str] on its objects, and the generator [uuid4]. *)
Context {UUID : Type}.
Variable uuid_UUID : string -> option UUID.
Variable uuid_str : UUID -> string.
Variable uuid4 : Env -> UUID * Env.

Definition chat_con_tools_invoke (messages : list ContextItem) : M ModelResponse :=
  fun w =>
    let '(r, env') := chat_con_tools messages (env w) in
    let w' := mkWorld env' (table w) (trace w ++ [EModel messages r]) in
    match r with
    | inl e => (Raise e, w')
    | inr response => (Ok response, w')
    end.

(** [t.invoke(tool_args)], made for the request [tool_call]. *)
Definition tool_invoke (t : Tool) (tool_call : ToolCall) : M string :=
  fun w =>
    let '(r, env') := invoke t (tc_args tool_call) (env w) in
    let w' := mkWorld env' (table w) (trace w ++ [ETool tool_call r]) in
    match r with
    | inl e => (Raise e, w')
    | inr s => (Ok s, w')
    end.

(** One database operation: it raises or it goes through. *)
Definition pg (op : PgOp) : M unit := fun w =>
  let '(r, env') := psycopg op (env w) in
  let w' := mkWorld env' (table w) (trace w ++ [EPg op r]) in
  match r with
  | Some e => (Raise e, w')
  | None => (Ok tt, w')
  end.

Definition table_name : string := "chat_history_datapath_rag_tools".

(** The rows of a session, oldest first; none for a session never written. *)
Definition rows (session_id : string) (t : gmap string (list BaseMessage)) : list BaseMessage :=
  default [] (t !! session_id).

Definition read_rows (session_id : string) : M (list BaseMessage) := fun w =>
  (Ok (rows session_id (table w)), w).

Definition append_row (session_id : string) (m : BaseMessage) : M unit := fun w =>
  (Ok tt,
   mkWorld (env w)
     (<[session_id := rows session_id (table w) ++ [m]]> (table w))
     (trace w)).

(** ** 5. crear_tabla_historial *)

Definition crear_tabla_historial : M unit :=
  try_except
    (pg PgConnect;;
     pg (PgCreateTables table_name);;
     pg PgClose)
    (fun e => print ("⚠️ Nota sobre tabla: " +:+ exc_str e)).

(** ** 6. get_session_history *)

(** A [PostgresChatMessageHistory]: the session it is bound to (the table
    name is fixed, the connection is in the world). *)
Definition PostgresChatMessageHistory := string.

Definition get_session_history (session_id : string) : M PostgresChatMessageHistory :=
  pg PgConnect;;
  mret session_id.

(** [history.messages]: every row of the session, oldest first; none for a
    session that has no row. *)
Definition history_messages (history : PostgresChatMessageHistory) : M (list BaseMessage) :=
  pg (PgSelect table_name history);;
  read_rows history.

(** [history.add_message]: one row inserted after the session's rows. *)
Definition add_message (history : PostgresChatMessageHistory) (m : BaseMessage) : M unit :=
  pg (PgInsert table_name history m);;
  append_row history m.

Definition add_user_message (history : PostgresChatMessageHistory) (message : string) : M unit :=
  add_message history (HumanMessage message).

Definition add_ai_message (history : PostgresChatMessageHistory) (message : string) : M unit :=
  add_message history (AIMessage message []).

(** ** 7. chat_con_agente *)

(** Lines 125-129, one step of the loop over [mensajes_previos]: a
    [HumanMessage] or an [AIMessage] adds a role/content dict, any other
    message adds nothing. *)
Definition agregar_historial (messages : list ContextItem) (msg : BaseMessage) : list ContextItem :=
  match msg with
  | HumanMessage c => messages ++ [Dict "user" c]
  | AIMessage c _ => messages ++ [Dict "assistant" c]
  | _ => messages
  end.

(** Lines 122-132: the request context of the first completion. *)
Definition construir_mensajes (mensajes_previos : list BaseMessage) (mensaje_usuario : string) : list ContextItem :=
  let messages := [Dict "system" system_prompt] in
  let messages := foldl agregar_historial messages mensajes_previos in
  messages ++ [Dict "user" mensaje_usuario].

(** Lines 146-153, the loop over [tools] for one request: the first tool
    whose name is the requested one is invoked, its result appended to
    [tool_results], and the loop left; with no such tool nothing happens. *)
Fixpoint buscar_y_ejecutar (ts : list Tool) (tool_call : ToolCall) (tool_results : list ToolResult) : M (list ToolResult) :=
  match ts with
  | [] => mret tool_results
  | t :: ts' =>
      if decide (name t = tc_name tool_call) then
        result ← tool_invoke t tool_call;
        mret (tool_results ++ [mkToolResult (tc_id tool_call) result])
      else buscar_y_ejecutar ts' tool_call tool_results
  end.

(** Lines 141-153, the loop over [response.tool_calls]. *)
Fixpoint ejecutar_tools (tool_calls : list ToolCall) (tool_results : list ToolResult) : M (list ToolResult) :=
  match tool_calls with
  | [] => mret tool_results
  | tool_call :: rest =>
      tool_results ← buscar_y_ejecutar tools tool_call tool_results;
      ejecutar_tools rest tool_results
  end.

(** Lines 157-161: one [ToolMessage] per collected result. *)
Definition tool_message (tr : ToolResult) : ContextItem :=
  Obj (ToolMessage (result tr) (tool_call_id tr)).

(** Lines 135-168: from the request context to [respuesta_final]. *)
Definition resolver (messages : list ContextItem) : M string :=
  response ← chat_con_tools_invoke messages;
  match tool_calls response with
  | _ :: _ =>
      tool_results ← ejecutar_tools (tool_calls response) [];
      let messages := messages ++ [Obj (response_message response)] in
      let messages := messages ++ map tool_message tool_results in
      final_response ← chat_con_tools_invoke messages;
      mret (content final_response)
  | [] => mret (content response)
  end.

Definition chat_con_agente (mensaje_usuario session_id : string) : M string :=
  history ← get_session_history session_id;
  mensajes_previos ← history_messages history;
  let messages := construir_mensajes mensajes_previos mensaje_usuario in
  respuesta_final ← resolver messages;
  add_user_message history mensaje_usuario;;
  add_ai_message history respuesta_final;;
  mret respuesta_final.

(** ** 8. main *)

(** [input(prompt)]: the line typed, or the exception of the console. *)
Definition input_line (prompt : string) : M string := fun w =>
  let '(r, env') := input prompt (env w) in
  let w' := mkWorld env' (table w) (trace w) in
  match r with
  | inl e => (Raise e, w')
  | inr line => (Ok line, w')
  end.

Definition str_uuid4 : M string := fun w =>
  let '(u, env') := uuid4 (env w) in
  (Ok (uuid_str u), mkWorld env' (table w) (trace w)).

(** ["=" * 60] and the like. *)
Fixpoint str_mul (s : string) (n : nat) : string :=
  match n with
  | 0 => ""
  | S n' => s +:+ str_mul s n'
  end.

Definition nl : string := String (Ascii.ascii_of_nat 10) EmptyString.

(** Lines 194-204: the session the conversation runs in. *)
Definition main_session : M string :=
  opcion ← input_line (nl +:+ "Elige (1/2): ");
  let opcion := strip opcion in
  if decide (opcion = "2") then
    session_id ← input_line "Pega el UUID de la sesión: ";
    let session_id := strip session_id in
    match uuid_UUID session_id with
    | Some _ => mret session_id
    | None =>
        print "⚠️ UUID inválido. Creando nueva sesión...";;
        str_uuid4
    end
  else str_uuid4.

(** Lines 211-227: the conversation loop, for at most [fuel] lines read;
    [true] when the loop was left by [break], [false] when the fuel ran
    out first. *)
Fixpoint main_loop (fuel : nat) (session_id : string) : M bool :=
  match fuel with
  | 0 => mret false
  | S fuel' =>
      usuario ← input_line "Tú: ";
      let usuario := strip usuario in
      if decide (lower usuario ∈ ["salir"; "exit"; "quit"]) then
        print (nl +:+ "💾 Tu sesión está guardada.");;
        print ("   UUID: " +:+ session_id);;
        print "👋 ¡Hasta luego!";;
        mret true
      else if decide (usuario = "") then
        main_loop fuel' session_id
      else
        try_except
          (respuesta ← chat_con_agente usuario session_id;
           print (nl +:+ "🤖 DataBot: " +:+ respuesta +:+ nl))
          (fun e => print (nl +:+ "❌ Error: " +:+ exc_str e +:+ nl));;
        main_loop fuel' session_id
  end.

(** Lines 181-193: the banner and the session menu. *)
Definition main_banner : M unit :=
  print (str_mul "=" 60);;
  print "🤖 DataBot - Agente con TOOLS + MEMORIA PERSISTENTE";;
  print (str_mul "=" 60);;
  print "🔧 Tools disponibles:";;
  foldr (fun t rest => print ("   - " +:+ name t);; rest) (mret tt) tools;;
  print "💾 Historial: PostgreSQL";;
  print (nl +:+ "Opciones de sesión:");;
  print "  1. Nueva conversación";;
  print "  2. Continuar sesión existente (pegar UUID)".

Definition main (fuel : nat) : M bool :=
  main_banner;;
  session_id ← main_session;
  print (nl +:+ "📝 Session ID: " +:+ session_id);;
  print "   (Guarda este ID para continuar después)";;
  print "✅ El agente DECIDE cuándo buscar en la base de conocimiento";;
  print ("Escribe 'salir' para volver al menú." +:+ nl);;
  main_loop fuel session_id.

End Agent.

(** ** The shape of a resolution cycle

    What one call of [chat_con_agente] can do to the outside, as a grammar
    of traces: each constructor is one path through the function. *)

Section Shape.

Context {Env : Type}.
Variable tools : list (@Tool Env).

(** The request names a tool of the registry. *)
Definition registered (tool_call : ToolCall) : Prop :=
  tc_name tool_call ∈ map name tools.

#[global] Instance registered_dec tool_call : Decision (registered tool_call).
Proof. unfold registered. apply _. Defined.

(** Invocations that returned: their events and the [tool_results] built
    from them. *)
Definition ok_events (done : list (ToolCall * string)) : list Event :=
  map (fun p => ETool p.1 (inr p.2)) done.

Definition results_of (done : list (ToolCall * string)) : list ToolResult :=
  map (fun p => mkToolResult (tc_id p.1) p.2) done.

(** Lines 135-168. *)
Inductive resolution (messages : list ContextItem) : list Event -> Outcome string -> Prop :=
| first_call_raises e :
    resolution messages [EModel messages (inl e)] (Raise e)
| direct_reply response :
    tool_calls response = [] ->
    resolution messages [EModel messages (inr response)] (Ok (content response))
| tool_raises response done tool_call e :
    tool_calls response <> [] ->
    map fst done ++ [tool_call] `prefix_of` filter registered (tool_calls response) ->
    resolution messages
      (EModel messages (inr response) :: ok_events done ++ [ETool tool_call (inl e)])
      (Raise e)
| second_call response done r :
    tool_calls response <> [] ->
    map fst done = filter registered (tool_calls response) ->
    resolution messages
      (EModel messages (inr response) :: ok_events done ++
       [EModel (messages ++ [Obj (response_message response)]
                         ++ map tool_message (results_of done)) r])
      (match r with inl e => Raise e | inr final_response => Ok (content final_response) end).

(** Lines 171-172: the two inserts, with the rows they leave. *)
Inductive saving (session_id mensaje_usuario respuesta_final : string) :
  list Event -> Outcome string -> list BaseMessage -> Prop :=
| user_insert_raises e :
    saving session_id mensaje_usuario respuesta_final
      [EPg (PgInsert table_name session_id (HumanMessage mensaje_usuario)) (Some e)]
      (Raise e) []
| ai_insert_raises e :
    saving session_id mensaje_usuario respuesta_final
      [EPg (PgInsert table_name session_id (HumanMessage mensaje_usuario)) None;
       EPg (PgInsert table_name session_id (AIMessage respuesta_final [])) (Some e)]
      (Raise e) [HumanMessage mensaje_usuario]
| both_inserted :
    saving session_id mensaje_usuario respuesta_final
      [EPg (PgInsert table_name session_id (HumanMessage mensaje_usuario)) None;
       EPg (PgInsert table_name session_id (AIMessage respuesta_final [])) None]
      (Ok respuesta_final)
      [HumanMessage mensaje_usuario; AIMessage respuesta_final []].

(** Lines 118-174: the whole cycle, from the rows [mensajes_previos] of the
    session: its events, its outcome, and the rows it adds. *)
Inductive cycle (mensaje_usuario session_id : string) (mensajes_previos : list BaseMessage) :
  list Event -> Outcome string -> list BaseMessage -> Prop :=
| connect_raises e :
    cycle mensaje_usuario session_id mensajes_previos
      [EPg PgConnect (Some e)] (Raise e) []
| select_raises e :
    cycle mensaje_usuario session_id mensajes_previos
      [EPg PgConnect None; EPg (PgSelect table_name session_id) (Some e)] (Raise e) []
| resolution_raises evs e :
    resolution (construir_mensajes mensajes_previos mensaje_usuario) evs (Raise e) ->
    cycle mensaje_usuario session_id mensajes_previos
      ([EPg PgConnect None; EPg (PgSelect table_name session_id) None] ++ evs) (Raise e) []
| resolved evs respuesta_final evs' o written :
    resolution (construir_mensajes mensajes_previos mensaje_usuario) evs (Ok respuesta_final) ->
    saving session_id mensaje_usuario respuesta_final evs' o written ->
    cycle mensaje_usuario session_id mensajes_previos
      ([EPg PgConnect None; EPg (PgSelect table_name session_id) None] ++ evs ++ evs')
      o written.

(** The table after the rows [written] were added to a session. *)
Definition persisted (session_id : string) (written : list BaseMessage)
    (t : gmap string (list BaseMessage)) : gmap string (list BaseMessage) :=
  match written with
  | [] => t
  | _ => <[session_id := rows session_id t ++ written]> t
  end.

End Shape.

(** ** Vocabulary of the properties *)

(** The events between two states of the world. *)
Definition events_since {Env} (w w' : @World Env) : list Event :=
  drop (length (trace w)) (trace w').

(** A Turn of the History: a user or an assistant message. *)
Definition is_turn (m : BaseMessage) : bool :=
  match m with
  | HumanMessage _ | AIMessage _ _ => true
  | _ => false
  end.

(** A plain text turn: a user message, or an assistant message that
    carries no invocation request. *)
Definition is_plain (m : BaseMessage) : bool :=
  match m with
  | HumanMessage _ | AIMessage _ [] => true
  | _ => false
  end.

(** A stored turn and its role/content pair. *)
Inductive turn_pair : BaseMessage -> ContextItem -> Prop :=
| user_pair c : turn_pair (HumanMessage c) (Dict "user" c)
| assistant_pair c tcs : turn_pair (AIMessage c tcs) (Dict "assistant" c).

(** An invocation and its result turn: the text the tool returned, under
    the identifier of the request. *)
Inductive result_turn : ToolCall * (PyExc + string) -> ContextItem -> Prop :=
| result_turn_of tool_call s :
    result_turn (tool_call, inr s) (Obj (ToolMessage s (tc_id tool_call))).

Definition is_dict (item : ContextItem) : bool :=
  match item with Dict _ _ => true | Obj _ => false end.

(** The database operations attempted, in order. *)
Definition pg_ops (evs : list Event) : list PgOp :=
  omap (fun ev => match ev with EPg op _ => Some op | _ => None end) evs.

(** The lines printed, in order. *)
Definition printed (evs : list Event) : list string :=
  omap (fun ev => match ev with EPrint line => Some line | _ => None end) evs.

(** A call to the model or a tool invocation. *)
Definition is_call (ev : Event) : bool :=
  match ev with EModel _ _ | ETool _ _ => true | _ => false end.

(** An insert into the history table. *)
Definition is_insert (ev : Event) : bool :=
  match ev with EPg (PgInsert _ _ _) _ => true | _ => false end.

(** A database operation of a conversation on [session_id]: a connect, the
    select of the session, or the insert into the session of a plain turn,
    a user turn being a line that is neither empty nor an exit word. *)
Definition loop_op (lower : string -> string) (session_id : string) (op : PgOp) : Prop :=
  match op with
  | PgConnect => True
  | PgSelect t s => t = "chat_history_datapath_rag_tools" /\ s = session_id
  | PgInsert t s m =>
      t = "chat_history_datapath_rag_tools" /\ s = session_id /\
      match m with
      | HumanMessage u => u <> "" /\ lower u ∉ ["salir"; "exit"; "quit"]
      | AIMessage _ [] => True
      | _ => False
      end
  | _ => False
  end.

(** ** 1. Database configuration *)

Section Config.

Context {Env : Type}.
(** [urllib.parse.quote_plus]. *)
Variable quote_plus : string -> string.

Definition raise {A} (e : PyExc) : @M Env A := fun w => (Raise e, w).

(** [os.getenv(key)] and [os.getenv(key, default)] on the process
    environment (as [load_dotenv] left it): the default stands for a
    variable that is not set, not for one set to the empty string. *)
Definition os_getenv (environ : gmap string string) (key : string) : option string :=
  environ !! key.

Definition os_getenv_default (environ : gmap string string) (key value : string) : string :=
  default value (environ !! key).

(** The truth value of what [os.getenv] gives: [None] and the empty string
    are false. *)
Definition truthy (v : option string) : bool :=
  match v with
  | Some s => negb (String.eqb s "")
  | None => false
  end.

(** [f"{v}"] for what [os.getenv] gives. *)
Definition py_str (v : option string) : string := default "None" v.

(** The module-level names of lines 32-44. *)
Record Config := mkConfig {
  DB_USER : option string;
  DB_PASSWORD : option string;
  DB_HOST : option string;
  DB_PORT : string;
  DB_NAME : string;
  DATABASE_URL : string
}.

(** Lines 32-46.  The URL is built only after the check, that is with the
    three variables set. *)
Definition configurar (environ : gmap string string) : @M Env Config :=
  let DB_USER := os_getenv environ "DB_USER" in
  let DB_PASSWORD := os_getenv environ "DB_PASSWORD" in
  let DB_HOST := os_getenv environ "DB_HOST" in
  let DB_PORT := os_getenv_default environ "DB_PORT" "5432" in
  let DB_NAME := os_getenv_default environ "DB_NAME" "postgres" in
  if negb (forallb truthy [DB_USER; DB_PASSWORD; DB_HOST]) then
    raise (mkExc "ValueError"
             ("❌ Faltan variables de base de datos en .env" +:+ nl +:+
              "Requeridas: DB_USER, DB_PASSWORD, DB_HOST"))
  else
    let DATABASE_URL :=
      "postgresql://" +:+ py_str DB_USER +:+ ":" +:+ quote_plus (py_str DB_PASSWORD) +:+
      "@" +:+ py_str DB_HOST +:+ ":" +:+ DB_PORT +:+ "/" +:+ DB_NAME in
    print ("🔌 Conectando como: " +:+ py_str DB_USER +:+ "@" +:+ py_str DB_HOST +:+
           ":" +:+ DB_PORT +:+ "/" +:+ DB_NAME);;
    mret (mkConfig DB_USER DB_PASSWORD DB_HOST DB_PORT DB_NAME DATABASE_URL).

End Config.

(** ** Test doubles

    Deterministic stand-ins for the external services, for running the
    program on concrete conversations: a chat model that answers from a
    script, a knowledge-base tool with a fixed answer, a database that
    accepts every operation unless told otherwise, a console fed from a
    list of lines, and a small [uuid] module that reads and writes the
    8-4-4-4-12 hexadecimal form. *)

Module Sim.

(** The external state: how many completions the model has given, and the
    lines still waiting on the console. *)
Record State := mkState {
  answered : nat;
  stdin : list string
}.

(** A model that gives the scripted completions one after the other. *)
Definition chat_model (script : list (PyExc + ModelResponse))
    (messages : list ContextItem) (s : State) : (PyExc + ModelResponse) * State :=
  (default (inl (mkExc "RuntimeError" "no completion left")) (script !! answered s),
   mkState (S (answered s)) (stdin s)).

(** [tools.Base_de_conocimiento.buscar_datapath], answering [text]. *)
Definition buscar_datapath (text : string) : @Tool State :=
  mkTool "buscar_datapath" (fun _ s => (inr text, s)).

(** The same tool with its search backend down. *)
Definition buscar_datapath_down : @Tool State :=
  mkTool "buscar_datapath"
    (fun _ s => (inl (mkExc "ConnectionError" "knowledge base unreachable"), s)).

Definition psycopg_ok (op : PgOp) (s : State) : option PyExc * State := (None, s).

(** A database that refuses the assistant rows. *)
Definition psycopg_no_ai (op : PgOp) (s : State) : option PyExc * State :=
  match op with
  | PgInsert _ _ (AIMessage _ _) => (Some (mkExc "OperationalError" "connection lost"), s)
  | _ => (None, s)
  end.

Definition input (prompt : string) (s : State) : (PyExc + string) * State :=
  match stdin s with
  | [] => (inl (mkExc "EOFError" "EOF when reading a line"), s)
  | line :: rest => (inr line, mkState (answered s) rest)
  end.

(** [str.strip] and [str.lower] on ASCII text. *)
Fixpoint lstrip (s : string) : string :=
  match s with
  | String a s' => if Ascii.is_space a then lstrip s' else s
  | EmptyString => EmptyString
  end.

Definition strip (s : string) : string :=
  String.rev (lstrip (String.rev (lstrip s))).

Definition lower_ascii (a : Ascii.ascii) : Ascii.ascii :=
  let n := Ascii.nat_of_ascii a in
  if (65 <=? n) && (n <=? 90) then Ascii.ascii_of_nat (n + 32) else a.

Fixpoint lower (s : string) : string :=
  match s with
  | String a s' => String (lower_ascii a) (lower s')
  | EmptyString => EmptyString
  end.

(** A UUID is its 128-bit value. *)
Definition hex_value (a : Ascii.ascii) : option N :=
  let n := Ascii.N_of_ascii a in
  if (48 <=? n)%N && (n <=? 57)%N then Some (n - 48)%N
  else if (97 <=? n)%N && (n <=? 102)%N then Some (n - 87)%N
  else if (65 <=? n)%N && (n <=? 70)%N then Some (n - 55)%N
  else None.

Fixpoint parse_hex (s : string) (acc : N) : option N :=
  match s with
  | EmptyString => Some acc
  | String a s' =>
      match hex_value a with
      | Some d => parse_hex s' (16 * acc + d)%N
      | None => None
      end
  end.

Definition uuid_UUID (s : string) : option N :=
  if decide (String.length s = 36 /\
             String.substring 8 1 s = "-" /\ String.substring 13 1 s = "-" /\
             String.substring 18 1 s = "-" /\ String.substring 23 1 s = "-")
  then parse_hex (String.substring 0 8 s +:+ String.substring 9 4 s +:+
                  String.substring 14 4 s +:+ String.substring 19 4 s +:+
                  String.substring 24 12 s) 0
  else None.

Definition hex_digit (d : N) : Ascii.ascii :=
  if (d <? 10)%N then Ascii.ascii_of_N (48 + d) else Ascii.ascii_of_N (87 + d).

(** The [k] low hexadecimal digits of [n], high digit first. *)
Fixpoint hex_digits (k : nat) (n : N) (acc : string) : string :=
  match k with
  | 0 => acc
  | S k' => hex_digits k' (n / 16)%N (String (hex_digit (n mod 16)%N) acc)
  end.

Definition uuid_str (u : N) : string :=
  hex_digits 8 (u / 2 ^ 96)%N "" +:+ "-" +:+
  hex_digits 4 (u / 2 ^ 80)%N "" +:+ "-" +:+
  hex_digits 4 (u / 2 ^ 64)%N "" +:+ "-" +:+
  hex_digits 4 (u / 2 ^ 48)%N "" +:+ "-" +:+
  hex_digits 12 u "".

(** A generator that always draws the same identifier. *)
Definition uuid4 (s : State) : N * State :=
  (0x3f2b8c1e9a7d4e5fb6a1c2d3e4f50617%N, s).

(** A world with an empty history table and nothing done yet. *)
Definition world (lines : list string) : @World State :=
  mkWorld (mkState 0 lines) ∅ [].

Definition session : string := "0f8fad5b-d9cb-469f-a165-70867728950e".

(** The request of the knowledge lookup, as the model issues it. *)
Definition lookup_call : ToolCall :=
  mkToolCall "buscar_datapath" [("query", "cursos")] "call_1".

(** A request for a tool this agent does not register. *)
Definition internet_call : ToolCall :=
  mkToolCall "buscar_internet" [("query", "cursos de IA")] "call_2".

(** What the knowledge base answers. *)
Definition kb : string := "DATAPATH ofrece programas de IA, Data Engineering y Analytics.".

(** "Hola" on an empty history: the model answers directly. *)
Definition hola_reply : ModelResponse := mkResponse "¡Hola! Soy DataBot." [].

Definition hola : Outcome string * @World State :=
  chat_con_agente (chat_model [inr hola_reply]) [buscar_datapath kb] psycopg_ok
    "Hola" session (world []).

(** "¿Qué cursos tienen?": the first completion asks for the knowledge
    lookup, the second one answers from its result. *)
Definition cursos_request : ModelResponse := mkResponse "" [lookup_call].
Definition cursos_reply : ModelResponse := mkResponse "Tenemos programas de IA." [].

Definition cursos : Outcome string * @World State :=
  chat_con_agente (chat_model [inr cursos_request; inr cursos_reply])
    [buscar_datapath kb] psycopg_ok "¿Qué cursos tienen?" session (world []).

(** The same question when the knowledge base is down. *)
Definition cursos_down : Outcome string * @World State :=
  chat_con_agente (chat_model [inr cursos_request; inr cursos_reply])
    [buscar_datapath_down] psycopg_ok "¿Qué cursos tienen?" session (world []).

(** The model asks for [buscar_internet], which this agent does not
    register, next to the lookup it does register. *)
Definition internet_request : ModelResponse :=
  mkResponse "" [internet_call; lookup_call].
Definition internet_reply : ModelResponse := mkResponse "Esto es lo que encontré." [].

Definition internet : Outcome string * @World State :=
  chat_con_agente (chat_model [inr internet_request; inr internet_reply])
    [buscar_datapath kb] psycopg_ok "Busca cursos de IA" session (world []).

(** A session whose stored rows hold a greeting and, from another writer, a
    system message. *)
Definition world_saludo : @World State :=
  mkWorld (mkState 0 [])
    {[ session := [HumanMessage "Hola"; SystemMessage "nota interna";
                   AIMessage "¡Hola! Soy DataBot." []] ]}
    [].

Definition gracias : Outcome string * @World State :=
  chat_con_agente (chat_model [inr (mkResponse "¡De nada!" [])])
    [buscar_datapath kb] psycopg_ok "Gracias" session world_saludo.

(** "Hola" when the database refuses the assistant row. *)
Definition hola_no_ai : Outcome string * @World State :=
  chat_con_agente (chat_model [inr hola_reply]) [buscar_datapath kb] psycopg_no_ai
    "Hola" session (world []).

(** A console on which the user types the same line for ever. *)
Definition input_always (line : string) (prompt : string) (s : State) :
    (PyExc + string) * State :=
  (inr line, s).

(** [quote_plus] on text made of letters and digits: nothing to escape. *)
Definition quote_plus (s : string) : string := s.

(** A process environment with the three required variables. *)
Definition environ : gmap string string :=
  {[ "DB_USER" := "postgres"; "DB_PASSWORD" := "secreto"; "DB_HOST" := "db.example.com" ]}.

(** A registry that holds the lookup twice: the one that answers, then the
    one that is down. *)
Definition tools_twice : list (@Tool State) :=
  [buscar_datapath kb; buscar_datapath_down].

(** Two turns of one conversation: "Hola", then "Gracias". *)
Definition charla_script : list (PyExc + ModelResponse) :=
  [inr hola_reply; inr (mkResponse "¡De nada!" [])].

Definition charla1 : Outcome string * @World State :=
  chat_con_agente (chat_model charla_script) [buscar_datapath kb] psycopg_ok
    "Hola" session (world []).

Definition charla2 : Outcome string * @World State :=
  chat_con_agente (chat_model charla_script) [buscar_datapath kb] psycopg_ok
    "Gracias" session charla1.2.

(** A conversation at the console: a greeting, a blank line, the exit
    word. *)
Definition conversacion : Outcome bool * @World State :=
  main_loop (chat_model [inr hola_reply]) [buscar_datapath kb] psycopg_ok
    input strip lower 5 session (world ["Hola"; "   "; "SALIR"]).

End Sim.

(** * Properties *)

(** ** Every run follows the grammar *)

Section Cycle.

Context {Env : Type}.
Variable chat_con_tools : list ContextItem -> Env -> (PyExc + ModelResponse) * Env.
Variable tools : list (@Tool Env).
Variable psycopg : PgOp -> Env -> option PyExc * Env.

Implicit Types (w : @World Env) (evs : list Event).

Lemma bind_run {A B} (m : M A) (k : A -> M B) w :
  (m ≫= k) w =
  match m w with
  | (Ok a, w') => k a w'
  | (Raise e, w') => (Raise e, w')
  end.
Proof. reflexivity. Qed.

Lemma pg_run op w :
  exists r env',
    pg psycopg op w =
      (match r with Some e => Raise e | None => Ok tt end,
       mkWorld env' (table w) (trace w ++ [EPg op r])).
Proof.
  unfold pg. destruct (psycopg op (env w)) as [r env'].
  exists r, env'. by destruct r.
Qed.

Lemma chat_run messages w :
  exists r env',
    chat_con_tools_invoke chat_con_tools messages w =
      (match r with inl e => Raise e | inr response => Ok response end,
       mkWorld env' (table w) (trace w ++ [EModel messages r])).
Proof.
  unfold chat_con_tools_invoke. destruct (chat_con_tools messages (env w)) as [r env'].
  exists r, env'. by destruct r.
Qed.

Lemma tool_run t tool_call w :
  exists r env',
    tool_invoke t tool_call w =
      (match r with inl e => Raise e | inr s => Ok s end,
       mkWorld env' (table w) (trace w ++ [ETool tool_call r])).
Proof.
  unfold tool_invoke. destruct (invoke t (tc_args tool_call) (env w)) as [r env'].
  exists r, env'. by destruct r.
Qed.

(** The loop over the registry for one request: either no tool has the
    name and nothing happens, or exactly one tool is invoked. *)
Lemma buscar_y_ejecutar_run ts tool_call tool_results w :
  ((tc_name tool_call ∉ map name ts) /\
   buscar_y_ejecutar ts tool_call tool_results w = (Ok tool_results, w)) \/
  ((tc_name tool_call ∈ map name ts) /\
   exists r env',
     buscar_y_ejecutar ts tool_call tool_results w =
       (match r with
        | inl e => Raise e
        | inr s => Ok (tool_results ++ [mkToolResult (tc_id tool_call) s])
        end,
        mkWorld env' (table w) (trace w ++ [ETool tool_call r]))).
Proof.
  induction ts as [|t ts IH]; simpl.
  - left. split; [apply not_elem_of_nil | done].
  - destruct (decide (name t = tc_name tool_call)) as [Heq|Hne].
    + right. split; [rewrite <- Heq; apply elem_of_cons; by left |].
      rewrite bind_run. destruct (tool_run t tool_call w) as (r & env' & ->).
      exists r, env'. by destruct r.
    + destruct IH as [[Hnot ->]|[Hin Hrun]].
      * left. split; [|done]. rewrite not_elem_of_cons. split; [congruence | done].
      * right. split; [apply elem_of_cons; by right | done].
Qed.

(** The loop over the requests: the registered ones are invoked in order,
    until one raises. *)
Lemma ejecutar_tools_run tool_calls tool_results w :
  exists done env',
    (map fst done = filter (registered tools) tool_calls /\
     ejecutar_tools tools tool_calls tool_results w =
       (Ok (tool_results ++ results_of done),
        mkWorld env' (table w) (trace w ++ ok_events done))) \/
    (exists tool_call e,
       map fst done ++ [tool_call] `prefix_of` filter (registered tools) tool_calls /\
       ejecutar_tools tools tool_calls tool_results w =
         (Raise e,
          mkWorld env' (table w) (trace w ++ ok_events done ++ [ETool tool_call (inl e)]))).
Proof.
  revert tool_results w.
  induction tool_calls as [|tc tcs IH]; intros tool_results w; simpl.
  - exists [], (env w). left. split; [done|]. simpl.
    rewrite !app_nil_r. by destruct w.
  - rewrite bind_run.
    destruct (buscar_y_ejecutar_run tools tc tool_results w)
      as [[Hnot ->]|[Hin (r & env1 & ->)]].
    + rewrite filter_cons_False by done. apply IH.
    + rewrite filter_cons_True by done. destruct r as [e|s].
      * exists [], env1. right. exists tc, e. split; [|done].
        simpl. apply prefix_cons, prefix_nil.
      * destruct (IH (tool_results ++ [mkToolResult (tc_id tc) s])
                    (mkWorld env1 (table w) (trace w ++ [ETool tc (inr s)])))
          as (done & env2 & [[Hdone ->]|(tc' & e & Hpre & ->)]).
        -- exists ((tc, s) :: done), env2. left. simpl. split; [by f_equal|].
           by rewrite <- !app_assoc.
        -- exists ((tc, s) :: done), env2. right. exists tc', e. simpl.
           split; [by apply prefix_cons|]. by rewrite <- !app_assoc.
Qed.

Lemma resolver_run messages w :
  exists evs o env',
    resolution tools messages evs o /\
    resolver chat_con_tools tools messages w =
      (o, mkWorld env' (table w) (trace w ++ evs)).
Proof.
  unfold resolver. rewrite bind_run.
  destruct (chat_run messages w) as (r & env1 & ->).
  destruct r as [e|response].
  { exists [EModel messages (inl e)], (Raise e), env1. split; [constructor | done]. }
  destruct (tool_calls response) as [|tc tcs] eqn:Htcs.
  { exists [EModel messages (inr response)], (Ok (content response)), env1.
    split; [by constructor | done]. }
  rewrite bind_run.
  set (w1 := mkWorld env1 _ _).
  destruct (ejecutar_tools_run (tc :: tcs) [] w1)
    as (done & env2 & [[Hdone ->]|(tc' & e & Hpre & ->)]).
  - rewrite bind_run. simpl app at 1.
    set (messages2 := (messages ++ _) ++ _).
    set (w2 := mkWorld env2 _ _).
    destruct (chat_run messages2 w2) as (r & env3 & Hrun).
    exists (EModel messages (inr response) :: ok_events done ++ [EModel messages2 r]),
      (match r with inl e => Raise e | inr f => Ok (content f) end), env3.
    split.
    + subst messages2. rewrite <- app_assoc.
      apply second_call; [by rewrite Htcs | by rewrite Htcs].
    + rewrite Hrun. subst w2 w1. simpl.
      rewrite <- !app_assoc. simpl. by destruct r.
  - exists (EModel messages (inr response) :: ok_events done ++ [ETool tc' (inl e)]),
      (Raise e), env2.
    split.
    + apply tool_raises; [by rewrite Htcs | by rewrite Htcs].
    + subst w1. simpl. by rewrite <- !app_assoc.
Qed.

Lemma saving_run session_id mensaje_usuario respuesta_final w :
  exists evs o written env',
    saving session_id mensaje_usuario respuesta_final evs o written /\
    (add_user_message psycopg session_id mensaje_usuario;;
     add_ai_message psycopg session_id respuesta_final;;
     mret respuesta_final) w =
      (o, mkWorld env' (persisted session_id written (table w)) (trace w ++ evs)).
Proof.
  unfold add_user_message, add_ai_message, add_message.
  rewrite !bind_run.
  destruct (pg_run (PgInsert table_name session_id (HumanMessage mensaje_usuario)) w)
    as ([e|] & env1 & ->).
  { eexists _, _, _, env1. split; [apply user_insert_raises | done]. }
  unfold append_row at 1. simpl.
  rewrite !bind_run.
  set (w1 := mkWorld env1 _ _).
  destruct (pg_run (PgInsert table_name session_id (AIMessage respuesta_final [])) w1)
    as ([e|] & env2 & ->).
  { eexists _, _, _, env2. split; [apply ai_insert_raises |].
    subst w1. simpl. by rewrite <- !app_assoc. }
  eexists _, _, _, env2. split; [apply both_inserted |].
  subst w1. unfold append_row, mret, M_ret. simpl.
  rewrite <- !app_assoc. simpl. do 2 f_equal.
  unfold rows. rewrite lookup_insert_eq. simpl.
  rewrite insert_insert_eq. by rewrite <- app_assoc.
Qed.

(** Every run of [chat_con_agente] is one path of [cycle]: its events are
    appended to the trace and the rows it wrote are added to the session. *)
Lemma chat_con_agente_cycle mensaje_usuario session_id w :
  exists evs o written env',
    cycle tools mensaje_usuario session_id (rows session_id (table w)) evs o written /\
    chat_con_agente chat_con_tools tools psycopg mensaje_usuario session_id w =
      (o, mkWorld env' (persisted session_id written (table w)) (trace w ++ evs)).
Proof.
  unfold chat_con_agente, get_session_history, history_messages.
  rewrite !bind_run.
  destruct (pg_run PgConnect w) as ([e|] & env1 & ->).
  { eexists _, _, [], env1. split; [apply connect_raises | done]. }
  unfold mret at 1, M_ret at 1. rewrite !bind_run.
  set (w1 := mkWorld env1 _ _).
  destruct (pg_run (PgSelect table_name session_id) w1) as ([e|] & env2 & ->).
  { eexists _, _, [], env2. split; [apply select_raises |].
    subst w1. simpl. by rewrite <- !app_assoc. }
  unfold read_rows at 1. rewrite !bind_run.
  set (w2 := mkWorld env2 _ _).
  change (table w2) with (table w).
  set (messages := construir_mensajes _ _).
  destruct (resolver_run messages w2) as (evs & o & env3 & Hres & ->).
  destruct o as [respuesta_final|e].
  - set (w3 := mkWorld env3 _ _).
    destruct (saving_run session_id mensaje_usuario respuesta_final w3)
      as (evs' & o & written & env4 & Hsav & ->).
    exists ([EPg PgConnect None; EPg (PgSelect table_name session_id) None] ++ evs ++ evs'),
      o, written, env4.
    split; [by eapply resolved |].
    subst w3 w2 w1. simpl. by rewrite <- !app_assoc.
  - exists ([EPg PgConnect None; EPg (PgSelect table_name session_id) None] ++ evs),
      (Raise e), [], env3.
    split; [by apply resolution_raises |].
    subst w2 w1. simpl. by rewrite <- !app_assoc.
Qed.


Lemma run_cycle mensaje_usuario session_id w o w' :
  chat_con_agente chat_con_tools tools psycopg mensaje_usuario session_id w = (o, w') ->
  exists written,
    cycle tools mensaje_usuario session_id (rows session_id (table w))
      (events_since w w') o written /\
    table w' = persisted session_id written (table w).
Proof.
  intros Hrun.
  destruct (chat_con_agente_cycle mensaje_usuario session_id w)
    as (evs & o' & written & env' & Hcycle & Heq).
  rewrite Hrun in Heq. injection Heq as -> ->.
  exists written. unfold events_since. simpl. by rewrite drop_app_length.
Qed.

(** *** Reading a trace *)

Lemma completions_app evs evs' :
  completions (evs ++ evs') = completions evs ++ completions evs'.
Proof. apply omap_app. Qed.

Lemma submitted_app evs evs' :
  submitted (evs ++ evs') = submitted evs ++ submitted evs'.
Proof. apply omap_app. Qed.

Lemma invoked_app evs evs' : invoked (evs ++ evs') = invoked evs ++ invoked evs'.
Proof. apply omap_app. Qed.

Lemma invocations_app evs evs' :
  invocations (evs ++ evs') = invocations evs ++ invocations evs'.
Proof. apply omap_app. Qed.

Lemma sent_app evs evs' : sent (evs ++ evs') = sent evs ++ sent evs'.
Proof. apply omap_app. Qed.

Lemma completions_ok_events done : completions (ok_events done) = [].
Proof. by induction done. Qed.

Lemma submitted_ok_events done : submitted (ok_events done) = [].
Proof. by induction done. Qed.

Lemma sent_ok_events done : sent (ok_events done) = [].
Proof. by induction done. Qed.

Lemma invoked_ok_events done : invoked (ok_events done) = map fst done.
Proof. induction done as [|p done IH]; [done|]. simpl. by rewrite <- IH. Qed.

Lemma invocations_ok_events done :
  invocations (ok_events done) = map (fun p => (p.1, inr p.2)) done.
Proof. induction done as [|p done IH]; [done|]. simpl. by rewrite <- IH. Qed.

Lemma call_failed_ok_events done : existsb call_failed (ok_events done) = false.
Proof. by induction done. Qed.

Lemma tool_failed_ok_events done : existsb tool_failed (ok_events done) = false.
Proof. by induction done. Qed.

Lemma pg_failed_ok_events done : existsb pg_failed (ok_events done) = false.
Proof. by induction done. Qed.

Lemma raised_app evs evs' : raised (evs ++ evs') = raised evs ++ raised evs'.
Proof. apply omap_app. Qed.

Lemma raised_ok_events done : raised (ok_events done) = [].
Proof. by induction done. Qed.

End Cycle.

Create Rewrite HintDb trace.

#[global] Hint Rewrite @completions_app @submitted_app @invoked_app @invocations_app
  @sent_app @completions_ok_events @submitted_ok_events @sent_ok_events
  @invoked_ok_events @invocations_ok_events @call_failed_ok_events
  @tool_failed_ok_events @pg_failed_ok_events @raised_app @raised_ok_events
  existsb_app @app_nil_r : trace.

(** Take a cycle apart, path by path, and read its trace. *)
Ltac cycle_paths H :=
  let Hres := fresh "Hres" in
  let Hsav := fresh "Hsav" in
  inversion H as [ | | ? ? Hres | ? ? ? ? ? Hres Hsav ]; subst; clear H;
  try (inversion Hres; subst; clear Hres);
  try (inversion Hsav; subst; clear Hsav);
  repeat match goal with
    | r : sum PyExc ModelResponse |- _ => destruct r
    end;
  simpl in *; autorewrite with trace in *; simpl in *;
  try discriminate; simplify_eq.

(** ** The resolution cycle *)

Section Claims.

Context {Env : Type}.
Variable chat_con_tools : list ContextItem -> Env -> (PyExc + ModelResponse) * Env.
Variable tools : list (@Tool Env).
Variable psycopg : PgOp -> Env -> option PyExc * Env.

Implicit Types (w : @World Env) (evs : list Event).

Local Abbreviation chat_con_agente := (chat_con_agente chat_con_tools tools psycopg).

Lemma rows_persisted session_id written t :
  rows session_id (persisted session_id written t) = rows session_id t ++ written.
Proof.
  destruct written as [|m written]; simpl; [by rewrite app_nil_r|].
  unfold rows at 1. by rewrite lookup_insert_eq.
Qed.

Lemma lookup_persisted_ne session_id session_id' written t :
  session_id' <> session_id ->
  persisted session_id written t !! session_id' = t !! session_id'.
Proof.
  intros Hne. destruct written; simpl; [done|]. by rewrite lookup_insert_ne.
Qed.

(** C1. A cycle that returns leaves the session's history two turns
    longer: the stored turns as they were, then the user's utterance, then
    the reply that was returned; the rows of every other session are
    untouched. *)
Theorem history_grows_by_two_turns mensaje_usuario session_id w respuesta w' :
  chat_con_agente mensaje_usuario session_id w = (Ok respuesta, w') ->
  rows session_id (table w') =
    rows session_id (table w) ++ [HumanMessage mensaje_usuario; AIMessage respuesta []] /\
  forall other, other <> session_id -> table w' !! other = table w !! other.
Proof.
  intros Hrun. apply run_cycle in Hrun as (written & Hcycle & ->).
  split; [rewrite rows_persisted | intros; by apply lookup_persisted_ne].
  cycle_paths Hcycle; done.
Qed.

(** C3. When a call to the model or a tool invocation raises during a
    cycle, the history table is exactly as it was before the cycle, and the
    cycle ends with that very exception, the only one raised: neither of
    the two turns was written. *)
Theorem failed_call_leaves_history mensaje_usuario session_id w o w' :
  chat_con_agente mensaje_usuario session_id w = (o, w') ->
  existsb call_failed (events_since w w') = true ->
  table w' = table w /\ exists e, o = Raise e /\ raised (events_since w w') = [e].
Proof.
  intros Hrun. apply run_cycle in Hrun as (written & Hcycle & ->).
  revert Hcycle. generalize (events_since w w'). intros evs Hcycle Hfail.
  cycle_paths Hcycle; try done.
  all: split; [done|]; by eexists.
Qed.

Lemma prefix_sublist {A} (l k : list A) : l `prefix_of` k -> l `sublist_of` k.
Proof. intros [k' ->]. by apply sublist_inserts_r. Qed.

Lemma registered_sublist done (tool_calls : list ToolCall) :
  done `prefix_of` filter (registered tools) tool_calls ->
  done `sublist_of` tool_calls.
Proof.
  intros Hpre. etrans; [by apply prefix_sublist | apply sublist_filter].
Qed.

(** C5. When the first completion carries no invocation request, no tool
    is invoked, the model is called exactly once, and the reply is the text
    of that completion: it is what the cycle returns whenever it returns,
    and it does return unless the database refuses an operation. *)
Theorem no_request_one_model_call mensaje_usuario session_id w o w' response :
  chat_con_agente mensaje_usuario session_id w = (o, w') ->
  head (completions (events_since w w')) = Some (inr response) ->
  tool_calls response = [] ->
  invoked (events_since w w') = [] /\
  completions (events_since w w') = [inr response] /\
  (forall respuesta, o = Ok respuesta -> respuesta = content response) /\
  (existsb pg_failed (events_since w w') = false -> o = Ok (content response)).
Proof.
  intros Hrun. apply run_cycle in Hrun as (written & Hcycle & _).
  revert Hcycle. generalize (events_since w w'). intros evs Hcycle Hhead Hnone.
  cycle_paths Hcycle; try done.
  all: repeat split; try done; intros; by simplify_eq.
Qed.

(** C4. When the first completion carries one or more invocation
    requests: the invocations made are a sublist of the requests (each
    request is invoked at most once, in order); the model is never called
    more than twice; once no invocation raised, the model is called exactly
    one more time, after every invocation, and nothing is invoked nor
    submitted after that call, whatever the second completion requests; and
    the reply is the text of the second completion. *)
Theorem requests_two_model_calls mensaje_usuario session_id w o w' response :
  chat_con_agente mensaje_usuario session_id w = (o, w') ->
  head (completions (events_since w w')) = Some (inr response) ->
  tool_calls response <> [] ->
  invoked (events_since w w') `sublist_of` tool_calls response /\
  length (completions (events_since w w')) <= 2 /\
  (existsb tool_failed (events_since w w') = false ->
   exists evs messages r evs',
     events_since w w' = evs ++ EModel messages r :: evs' /\
     completions evs = [inr response] /\
     invoked evs' = [] /\ completions evs' = []) /\
  (forall final_response,
     completions (events_since w w') = [inr response; inr final_response] ->
     existsb pg_failed (events_since w w') = false ->
     o = Ok (content final_response)) /\
  (forall respuesta,
     o = Ok respuesta ->
     exists final_response,
       completions (events_since w w') = [inr response; inr final_response] /\
       respuesta = content final_response).
Proof.
  intros Hrun. apply run_cycle in Hrun as (written & Hcycle & _).
  revert Hcycle. generalize (events_since w w'). intros evs Hcycle Hhead Hsome.
  cycle_paths Hcycle; try done.
  all: split; [first [by apply registered_sublist
                     | match goal with H : map fst _ = _ |- _ => rewrite H end;
                       apply sublist_filter] |].
  all: split; [lia|].
  all: split;
    [ first [ done
            | intros _;
              eexists (_ :: _ :: _ :: ok_events done), _, _, _;
              simpl; rewrite <- ?app_assoc; split; [reflexivity|];
              by autorewrite with trace ]
    | split; intros; simplify_eq; eauto ].
Qed.


(** *** The request context *)

Lemma agregar_historial_turns messages mensajes_previos :
  exists hist,
    foldl agregar_historial messages mensajes_previos = messages ++ hist /\
    Forall2 turn_pair (filter is_turn mensajes_previos) hist /\
    Forall is_dict hist.
Proof.
  revert messages.
  induction mensajes_previos as [|msg rest IH]; intros messages; simpl.
  - exists []. by rewrite app_nil_r.
  - destruct msg as [c|c tcs|c id|c]; simpl.
    + destruct (IH (messages ++ [Dict "user" c])) as (hist & -> & Hpairs & Hdict).
      exists (Dict "user" c :: hist). rewrite <- app_assoc.
      rewrite filter_cons_True by done.
      repeat split; [by constructor; [constructor|] | by constructor].
    + destruct (IH (messages ++ [Dict "assistant" c])) as (hist & -> & Hpairs & Hdict).
      exists (Dict "assistant" c :: hist). rewrite <- app_assoc.
      rewrite filter_cons_True by done.
      repeat split; [by constructor; [constructor|] | by constructor].
    + rewrite filter_cons_False by (by intros ?). apply IH.
    + rewrite filter_cons_False by (by intros ?). apply IH.
Qed.

Lemma agregar_historial_filter messages mensajes_previos :
  foldl agregar_historial messages mensajes_previos =
  foldl agregar_historial messages (filter is_turn mensajes_previos).
Proof.
  revert messages.
  induction mensajes_previos as [|msg rest IH]; intros messages; [done|].
  rewrite filter_cons. destruct msg; simpl; apply IH.
Qed.

Lemma construir_mensajes_turns mensajes_previos mensaje_usuario :
  exists hist,
    construir_mensajes mensajes_previos mensaje_usuario =
      Dict "system" system_prompt :: hist ++ [Dict "user" mensaje_usuario] /\
    Forall2 turn_pair (filter is_turn mensajes_previos) hist /\
    Forall is_dict hist.
Proof.
  unfold construir_mensajes.
  destruct (agregar_historial_turns [Dict "system" system_prompt] mensajes_previos)
    as (hist & -> & Hpairs & Hdict).
  by exists hist.
Qed.

Lemma construir_mensajes_filter mensajes_previos mensaje_usuario :
  construir_mensajes mensajes_previos mensaje_usuario =
  construir_mensajes (filter is_turn mensajes_previos) mensaje_usuario.
Proof. unfold construir_mensajes. by rewrite agregar_historial_filter. Qed.

Lemma construir_mensajes_dicts mensajes_previos mensaje_usuario :
  Forall is_dict (construir_mensajes mensajes_previos mensaje_usuario).
Proof.
  destruct (construir_mensajes_turns mensajes_previos mensaje_usuario)
    as (hist & -> & _ & Hdict).
  constructor; [done|]. apply Forall_app. split; [done|]. by constructor.
Qed.

(** C6. Unless the history could not be loaded, the context submitted for
    the first completion is the system instruction, then the stored turns
    of the session in insertion order, each as its role/content pair, then
    the new utterance as the last user turn. *)
Theorem first_request_context mensaje_usuario session_id w o w' :
  chat_con_agente mensaje_usuario session_id w = (o, w') ->
  (submitted (events_since w w') = [] /\
   existsb pg_failed (events_since w w') = true) \/
  exists hist,
    head (submitted (events_since w w')) =
      Some (Dict "system" system_prompt :: hist ++ [Dict "user" mensaje_usuario]) /\
    Forall2 turn_pair (filter is_turn (rows session_id (table w))) hist.
Proof.
  intros Hrun. apply run_cycle in Hrun as (written & Hcycle & _).
  revert Hcycle. generalize (events_since w w'). intros evs Hcycle.
  destruct (construir_mensajes_turns (rows session_id (table w)) mensaje_usuario)
    as (hist & Hctx & Hpairs & _).
  cycle_paths Hcycle; try (by left).
  all: right; exists hist; by rewrite Hctx.
Qed.

Lemma result_turns done :
  Forall2 result_turn (map (fun p => (p.1, inr p.2)) done)
    (map tool_message (results_of done)).
Proof.
  induction done as [|[tc s] done IH]; simpl; constructor; [constructor | done].
Qed.

Lemma registered_prefix_elem done (tool_calls : list ToolCall) tool_call :
  done `prefix_of` filter (registered tools) tool_calls ->
  tool_call ∈ done ->
  registered tools tool_call /\ tool_call ∈ tool_calls.
Proof.
  intros [k Hk] Hin.
  apply (list_elem_of_filter (registered tools)). rewrite Hk. set_solver.
Qed.

(** C7. In a cycle that submits a second context, that context is the
    first one (role/content dicts only), then the assistant message of the
    first completion with its requests, then one result turn per
    invocation made, in order, each with the text the tool returned and the
    identifier of its request; every request invoked is a request of the
    first completion. *)
Theorem result_turns_correlated mensaje_usuario session_id w o w' response messages messages2 :
  chat_con_agente mensaje_usuario session_id w = (o, w') ->
  head (completions (events_since w w')) = Some (inr response) ->
  submitted (events_since w w') = [messages; messages2] ->
  Forall is_dict messages /\
  (forall tool_call,
     tool_call ∈ invoked (events_since w w') -> tool_call ∈ tool_calls response) /\
  exists turns,
    messages2 =
      messages ++ Obj (AIMessage (content response) (tool_calls response)) :: turns /\
    Forall2 result_turn (invocations (events_since w w')) turns.
Proof.
  intros Hrun. apply run_cycle in Hrun as (written & Hcycle & _).
  revert Hcycle. generalize (events_since w w'). intros evs Hcycle Hhead Hsub.
  cycle_paths Hcycle; try done.
  all: split; [apply construir_mensajes_dicts|].
  all: split;
    [ intros tc Htc; eapply registered_prefix_elem; [|done];
      match goal with H : map fst _ = _ |- _ => by rewrite H end
    | eexists; split; [reflexivity | apply result_turns] ].
Qed.


Lemma persisted_plain session_id written t other :
  Forall is_plain written ->
  Forall is_plain (rows other t) ->
  Forall is_plain (rows other (persisted session_id written t)).
Proof.
  intros Hwritten Hrows.
  destruct (decide (other = session_id)) as [->|Hne].
  - rewrite rows_persisted. by apply Forall_app.
  - unfold rows. by rewrite lookup_persisted_ne.
Qed.

Lemma cycle_written_plain mensaje_usuario session_id mensajes_previos evs o written :
  cycle tools mensaje_usuario session_id mensajes_previos evs o written ->
  Forall is_plain written.
Proof.
  intros Hcycle. inversion Hcycle as [ | | | ? ? ? ? ? ? Hsav ]; subst; try done.
  inversion Hsav; by repeat constructor.
Qed.

(** C10. Every row a cycle sends to the history table is a plain user or
    assistant text turn, so a table whose sessions hold only plain turns
    stays so: the assistant message with the requests and the result turns
    live in the request context only.  And the first context of a cycle is
    the one built from the user and assistant messages of the session
    alone: any other stored message is left out. *)
Theorem history_only_plain_turns mensaje_usuario session_id w o w' :
  chat_con_agente mensaje_usuario session_id w = (o, w') ->
  Forall is_plain (sent (events_since w w')) /\
  (forall other,
     Forall is_plain (rows other (table w)) ->
     Forall is_plain (rows other (table w'))) /\
  (forall messages,
     head (submitted (events_since w w')) = Some messages ->
     messages =
       construir_mensajes (filter is_turn (rows session_id (table w))) mensaje_usuario).
Proof.
  intros Hrun. apply run_cycle in Hrun as (written & Hcycle & ->).
  revert Hcycle. generalize (events_since w w'). intros evs Hcycle.
  rewrite <- construir_mensajes_filter.
  pose proof (cycle_written_plain _ _ _ _ _ _ Hcycle) as Hplain.
  assert (forall other,
             Forall is_plain (rows other (table w)) ->
             Forall is_plain (rows other (persisted session_id written (table w))))
    as Hinv by (intros other; by apply persisted_plain).
  clear Hplain. revert Hinv.
  generalize (persisted session_id written (table w)). intros t' Hinv.
  cycle_paths Hcycle.
  all: split; [by repeat constructor | split; [done | intros; by simplify_eq]].
Qed.


(** *** Table initialisation *)

Lemma events_since_app w env' t evs :
  events_since w (mkWorld env' t (trace w ++ evs)) = evs.
Proof. unfold events_since. simpl. apply drop_app_length. Qed.

Lemma crear_tabla_historial_run w :
  exists env' evs,
    crear_tabla_historial psycopg w = (Ok tt, mkWorld env' (table w) (trace w ++ evs)) /\
    (raised evs = [] \/
     exists e evs0,
       raised evs = [e] /\
       evs = evs0 ++ [EPrint ("⚠️ Nota sobre tabla: " +:+ exc_str e)]).
Proof.
  unfold crear_tabla_historial, try_except. rewrite !bind_run.
  destruct (pg_run psycopg PgConnect w) as ([e|] & env1 & ->).
  { unfold print, emit. simpl. eexists env1, _. rewrite <- app_assoc.
    split; [reflexivity|]. right. by exists e, [EPg PgConnect (Some e)]. }
  rewrite !bind_run. set (w1 := mkWorld env1 _ _).
  destruct (pg_run psycopg (PgCreateTables table_name) w1) as ([e|] & env2 & ->).
  { unfold print, emit. subst w1. simpl. eexists env2, _. rewrite <- !app_assoc.
    split; [reflexivity|]. right.
    by exists e, [EPg PgConnect None; EPg (PgCreateTables table_name) (Some e)]. }
  set (w2 := mkWorld env2 _ _).
  destruct (pg_run psycopg PgClose w2) as ([e|] & env3 & ->).
  { unfold print, emit. subst w2 w1. simpl. eexists env3, _. rewrite <- !app_assoc.
    split; [reflexivity|]. right.
    by exists e, [EPg PgConnect None; EPg (PgCreateTables table_name) None;
                  EPg PgClose (Some e)]. }
  subst w2 w1. simpl. eexists env3, _. rewrite <- !app_assoc.
  split; [reflexivity|]. by left.
Qed.

(** C9. [crear_tabla_historial] returns normally from every state of the
    world, whatever the connection, the table creation and the close do;
    the table rows are untouched; an exception raised on the way is the
    only one and is printed as a note; and running it again returns
    normally too. *)
Theorem crear_tabla_historial_never_raises w :
  exists w',
    crear_tabla_historial psycopg w = (Ok tt, w') /\
    table w' = table w /\
    (raised (events_since w w') = [] \/
     exists e evs,
       raised (events_since w w') = [e] /\
       events_since w w' = evs ++ [EPrint ("⚠️ Nota sobre tabla: " +:+ exc_str e)]) /\
    fst (crear_tabla_historial psycopg w') = Ok tt.
Proof.
  destruct (crear_tabla_historial_run w) as (env' & evs & Hrun & Hlog).
  eexists. split; [exact Hrun|]. rewrite events_since_app.
  split; [done|]. split; [done|].
  match goal with |- context [crear_tabla_historial _ ?w1] =>
    destruct (crear_tabla_historial_run w1) as (? & ? & -> & _) end.
  done.
Qed.

End Claims.

(** ** The session menu *)

Section Session.

Context {Env UUID : Type}.
Variable chat_con_tools : list ContextItem -> Env -> (PyExc + ModelResponse) * Env.
Variable tools : list (@Tool Env).
Variable psycopg : PgOp -> Env -> option PyExc * Env.
Variable input : string -> Env -> (PyExc + string) * Env.
Variable strip lower : string -> string.
Variable uuid_UUID : string -> option UUID.
Variable uuid_str : UUID -> string.
Variable uuid4 : Env -> UUID * Env.

Implicit Types (w : @World Env).

Lemma print_tools_run (ts : list (@Tool Env)) w :
  foldr (fun t rest => print ("   - " +:+ name t);; rest) (mret tt) ts w =
    (Ok tt,
     mkWorld (env w) (table w)
       (trace w ++ map (fun t => EPrint ("   - " +:+ name t)) ts)).
Proof.
  revert w. induction ts as [|t ts IH]; intros w; simpl.
  - rewrite app_nil_r. by destruct w.
  - rewrite bind_run. unfold print at 1, emit. simpl.
    rewrite IH. simpl. by rewrite <- app_assoc.
Qed.

Lemma print_bind {B} line (k : unit -> M B) w :
  (print line ≫= k) w = k tt (emit (EPrint line) w).
Proof. reflexivity. Qed.

Lemma main_banner_run w :
  exists evs,
    main_banner tools w = (Ok tt, mkWorld (env w) (table w) (trace w ++ evs)).
Proof.
  unfold main_banner. rewrite !print_bind, bind_run, print_tools_run, !print_bind.
  unfold print, emit. cbn [env table trace].
  eexists. by rewrite <- !app_assoc.
Qed.

(** C8. When the user chooses to resume a session and pastes a string
    that [uuid.UUID] rejects, the session selection does not fail: it
    returns the text of an identifier drawn by [uuid4], which [uuid.UUID]
    accepts as soon as it accepts what [uuid4] draws, and [main] goes on to
    the conversation loop with that identifier. *)
Theorem malformed_session_id_replaced fuel w opcion pegado env1 env2 :
  (forall env, is_Some (uuid_UUID (uuid_str (uuid4 env).1))) ->
  input (nl +:+ "Elige (1/2): ") (env w) = (inr opcion, env1) ->
  strip opcion = "2" ->
  input "Pega el UUID de la sesión: " env1 = (inr pegado, env2) ->
  uuid_UUID (strip pegado) = None ->
  exists session_id w1 w2,
    session_id = uuid_str (uuid4 env2).1 /\
    is_Some (uuid_UUID session_id) /\
    main_session input strip uuid_UUID uuid_str uuid4 w = (Ok session_id, w1) /\
    env w1 = (uuid4 env2).2 /\ table w1 = table w /\
    env w2 = env w1 /\ table w2 = table w1 /\
    main chat_con_tools tools psycopg input strip lower uuid_UUID uuid_str uuid4 fuel w =
      main_loop chat_con_tools tools psycopg input strip lower fuel session_id w2.
Proof.
  intros Hvalid Hopcion Hdos Hpegado Hmal.
  assert (forall w0, env w0 = env w ->
            main_session input strip uuid_UUID uuid_str uuid4 w0 =
              (Ok (uuid_str (uuid4 env2).1),
               mkWorld (uuid4 env2).2 (table w0)
                 (trace w0 ++ [EPrint "⚠️ UUID inválido. Creando nueva sesión..."])))
    as Hsession.
  { intros w0 Henv. unfold main_session. rewrite bind_run.
    unfold input_line at 1. rewrite Henv, Hopcion. simpl. rewrite Hdos.
    destruct (decide ("2" = "2")) as [_|]; [|done].
    rewrite bind_run. unfold input_line. simpl. rewrite Hpegado. simpl.
    rewrite Hmal. rewrite bind_run. unfold print, emit, str_uuid4. simpl.
    by destruct (uuid4 env2). }
  destruct (main_banner_run w) as (evs & Hbanner).
  eexists _, _, _. split; [reflexivity|]. split; [apply Hvalid|].
  split; [by apply Hsession|]. split; [done|]. split; [done|].
  unfold main. rewrite bind_run, Hbanner.
  rewrite bind_run, Hsession by done.
  rewrite !print_bind. unfold emit. cbn [env table trace].
  split; [|split]; [| |reflexivity]; done.
Qed.

End Session.

(** * The properties on concrete conversations *)

(** "Hola" on an empty history ends with the two new turns. *)
Lemma history_grows_by_two_turns_witness :
  Sim.hola.1 = Ok "¡Hola! Soy DataBot." /\
  rows Sim.session (table Sim.hola.2) =
    [HumanMessage "Hola"; AIMessage "¡Hola! Soy DataBot." []].
Proof.
  assert (Sim.hola = (Ok "¡Hola! Soy DataBot.", Sim.hola.2)) as Hrun
    by (etrans; [apply surjective_pairing|]; f_equal; vm_compute; reflexivity).
  split; [by rewrite Hrun|].
  exact (proj1 (history_grows_by_two_turns _ _ _ _ _ _ _ _ Hrun)).
Defined.

(** The knowledge base is down: the cycle fails and nothing is stored. *)
Lemma failed_call_leaves_history_witness :
  existsb call_failed (events_since (Sim.world []) Sim.cursos_down.2) = true /\
  table Sim.cursos_down.2 = ∅.
Proof.
  assert (Sim.cursos_down = (Sim.cursos_down.1, Sim.cursos_down.2)) as Hrun by apply surjective_pairing.
  assert (existsb call_failed (events_since (Sim.world []) Sim.cursos_down.2) = true)
    as Hfail by (vm_compute; reflexivity).
  split; [exact Hfail|].
  exact (proj1 (failed_call_leaves_history _ _ _ _ _ _ _ _ Hrun Hfail)).
Defined.

(** "Hola": one model call, no tool, the completion's text as the reply. *)
Lemma no_request_one_model_call_witness :
  tool_calls Sim.hola_reply = [] /\
  invoked (events_since (Sim.world []) Sim.hola.2) = [] /\
  completions (events_since (Sim.world []) Sim.hola.2) = [inr Sim.hola_reply].
Proof.
  assert (Sim.hola = (Sim.hola.1, Sim.hola.2)) as Hrun by apply surjective_pairing.
  assert (head (completions (events_since (Sim.world []) Sim.hola.2)) =
          Some (inr Sim.hola_reply)) as Hhead by (vm_compute; reflexivity).
  assert (tool_calls Sim.hola_reply = []) as Hnone by reflexivity.
  split; [exact Hnone|].
  destruct (no_request_one_model_call _ _ _ _ _ _ _ _ _ Hrun Hhead Hnone)
    as (Hinv & Hcomp & _).
  split; [exact Hinv | exact Hcomp].
Defined.

(** "¿Qué cursos tienen?": the lookup is invoked once and the model is
    called twice. *)
Lemma requests_two_model_calls_witness :
  tool_calls Sim.cursos_request <> [] /\
  completions (events_since (Sim.world []) Sim.cursos.2) =
    [inr Sim.cursos_request; inr Sim.cursos_reply] /\
  Sim.cursos.1 = Ok "Tenemos programas de IA." /\
  invoked (events_since (Sim.world []) Sim.cursos.2) `sublist_of` [Sim.lookup_call] /\
  length (completions (events_since (Sim.world []) Sim.cursos.2)) <= 2.
Proof.
  assert (Sim.cursos = (Sim.cursos.1, Sim.cursos.2)) as Hrun by apply surjective_pairing.
  assert (head (completions (events_since (Sim.world []) Sim.cursos.2)) =
          Some (inr Sim.cursos_request)) as Hhead by (vm_compute; reflexivity).
  assert (tool_calls Sim.cursos_request <> []) as Hsome by (simpl; discriminate).
  split; [exact Hsome|].
  assert (completions (events_since (Sim.world []) Sim.cursos.2) =
          [inr Sim.cursos_request; inr Sim.cursos_reply]) as Hcalls
    by (vm_compute; reflexivity).
  split; [exact Hcalls|].
  destruct (requests_two_model_calls _ _ _ _ _ _ _ _ _ Hrun Hhead Hsome)
    as (Hsub & Hlen & _ & Hreply & _).
  split; [apply (Hreply _ Hcalls); vm_compute; reflexivity|].
  split; [exact Hsub | exact Hlen].
Defined.

(** "Gracias" after a stored greeting: the context holds the two stored
    turns between the system instruction and the new utterance. *)
Lemma first_request_context_witness :
  head (submitted (events_since Sim.world_saludo Sim.gracias.2)) =
    Some [Dict "system" system_prompt; Dict "user" "Hola";
          Dict "assistant" "¡Hola! Soy DataBot."; Dict "user" "Gracias"] /\
  ((submitted (events_since Sim.world_saludo Sim.gracias.2) = [] /\
   existsb pg_failed (events_since Sim.world_saludo Sim.gracias.2) = true) \/
  exists hist,
    head (submitted (events_since Sim.world_saludo Sim.gracias.2)) =
      Some (Dict "system" system_prompt :: hist ++ [Dict "user" "Gracias"]) /\
    Forall2 turn_pair
      (filter is_turn (rows Sim.session (table Sim.world_saludo))) hist).
Proof.
  assert (Sim.gracias = (Sim.gracias.1, Sim.gracias.2)) as Hrun by apply surjective_pairing.
  split; [vm_compute; reflexivity|].
  exact (first_request_context _ _ _ _ _ _ _ _ Hrun).
Defined.

(** "¿Qué cursos tienen?": the second context ends with the result turn of
    the lookup. *)
Lemma result_turns_correlated_witness :
  exists messages messages2 turns,
    submitted (events_since (Sim.world []) Sim.cursos.2) = [messages; messages2] /\
    messages2 = messages ++ Obj (AIMessage "" [Sim.lookup_call]) :: turns /\
    Forall2 result_turn (invocations (events_since (Sim.world []) Sim.cursos.2)) turns.
Proof.
  assert (Sim.cursos = (Sim.cursos.1, Sim.cursos.2)) as Hrun by apply surjective_pairing.
  assert (head (completions (events_since (Sim.world []) Sim.cursos.2)) =
          Some (inr Sim.cursos_request)) as Hhead by (vm_compute; reflexivity).
  eexists _, _.
  assert (submitted (events_since (Sim.world []) Sim.cursos.2) = [_; _]) as Hsub
    by (vm_compute; reflexivity).
  destruct (result_turns_correlated _ _ _ _ _ _ _ _ _ _ _ Hrun Hhead Hsub)
    as (_ & _ & turns & Hctx & Hturns).
  exists turns. split; [reflexivity|]. split; [exact Hctx | exact Hturns].
Defined.

(** "¿Qué cursos tienen?": both rows sent to the table are plain turns. *)
Lemma history_only_plain_turns_witness :
  Forall is_plain (sent (events_since (Sim.world []) Sim.cursos.2)) /\
  Forall is_plain (rows Sim.session (table Sim.cursos.2)).
Proof.
  assert (Sim.cursos = (Sim.cursos.1, Sim.cursos.2)) as Hrun by apply surjective_pairing.
  destruct (history_only_plain_turns _ _ _ _ _ _ _ _ Hrun) as (Hsent & Hinv & _).
  split; [exact Hsent|]. apply Hinv. constructor.
Defined.



(** The user answers " 2 " and pastes "no-es-un-uuid": the session runs
    under the identifier the generator draws. *)
Lemma malformed_session_id_replaced_witness :
  Sim.uuid_UUID (Sim.strip "no-es-un-uuid") = None /\
  (main_session Sim.input Sim.strip Sim.uuid_UUID Sim.uuid_str Sim.uuid4
     (Sim.world [" 2 "; "no-es-un-uuid"])).1 =
    Ok "3f2b8c1e-9a7d-4e5f-b6a1-c2d3e4f50617".
Proof.
  assert (Sim.uuid_UUID (Sim.strip "no-es-un-uuid") = None) as Hmal
    by (vm_compute; reflexivity).
  split; [exact Hmal|].
  destruct (malformed_session_id_replaced
              (Sim.chat_model []) [] Sim.psycopg_ok Sim.input Sim.strip Sim.lower
              Sim.uuid_UUID Sim.uuid_str Sim.uuid4 0
              (Sim.world [" 2 "; "no-es-un-uuid"]) " 2 " "no-es-un-uuid"
              (Sim.mkState 0 ["no-es-un-uuid"]) (Sim.mkState 0 []))
    as (session_id & w1 & w2 & -> & _ & -> & _).
  - intros s. vm_compute. by eexists.
  - vm_compute. reflexivity.
  - vm_compute. reflexivity.
  - vm_compute. reflexivity.
  - exact Hmal.
  - vm_compute. reflexivity.
Defined.

(** When the database refuses the assistant row, the user row is already
    in: the two inserts are separate statements, and a failure of the
    second one is neither a failure of the model nor of a tool. *)
Example second_insert_refused :
  Sim.hola_no_ai.1 = Raise (mkExc "OperationalError" "connection lost") /\
  existsb call_failed (events_since (Sim.world []) Sim.hola_no_ai.2) = false /\
  rows Sim.session (table Sim.hola_no_ai.2) = [HumanMessage "Hola"].
Proof. vm_compute. by repeat split. Qed.

(** * More of the program *)

(** ** More on the resolution cycle *)

Section CycleMore.

Context {Env : Type}.
Variable chat_con_tools : list ContextItem -> Env -> (PyExc + ModelResponse) * Env.
Variable tools : list (@Tool Env).
Variable psycopg : PgOp -> Env -> option PyExc * Env.

Implicit Types (w : @World Env) (evs : list Event).

Local Abbreviation chat_con_agente := (chat_con_agente chat_con_tools tools psycopg).

Lemma pg_ops_app evs evs' : pg_ops (evs ++ evs') = pg_ops evs ++ pg_ops evs'.
Proof. apply omap_app. Qed.

Lemma pg_ops_ok_events done : pg_ops (ok_events done) = [].
Proof. by induction done. Qed.

Lemma printed_app evs evs' : printed (evs ++ evs') = printed evs ++ printed evs'.
Proof. apply omap_app. Qed.

Lemma printed_ok_events done : printed (ok_events done) = [].
Proof. by induction done. Qed.

Lemma ok_events_calls done : Forall is_call (ok_events done).
Proof. induction done; by constructor. Qed.

Lemma ok_events_returned done :
  Forall (fun p => exists s, p.2 = inr s) (invocations (ok_events done)).
Proof.
  rewrite invocations_ok_events.
  induction done as [|[tc s] done IH]; constructor; [by exists s | done].
Qed.

Lemma last_app_two {A} (l : list A) x y : last (l ++ [x; y]) = Some y.
Proof. change [x; y] with ([x] ++ [y]). by rewrite app_assoc, last_snoc. Qed.

Lemma cycle_written_length mensaje_usuario session_id mensajes_previos evs o written :
  cycle tools mensaje_usuario session_id mensajes_previos evs o written ->
  length written <= 2.
Proof.
  intros Hcycle. inversion Hcycle as [ | | | ? ? ? ? ? ? Hsav ]; subst; simpl; try lia.
  inversion Hsav; simpl; lia.
Qed.

End CycleMore.

#[global] Hint Rewrite @pg_ops_app @pg_ops_ok_events @printed_app @printed_ok_events
  : trace.

Section CycleExtras.

Context {Env : Type}.
Variable chat_con_tools : list ContextItem -> Env -> (PyExc + ModelResponse) * Env.
Variable tools : list (@Tool Env).
Variable psycopg : PgOp -> Env -> option PyExc * Env.

Implicit Types (w : @World Env) (evs : list Event).

Local Abbreviation chat_con_agente := (chat_con_agente chat_con_tools tools psycopg).

(** X1. Whatever the outcome of a cycle, the history of its session only
    grows: the rows stored before are a prefix of the rows stored after,
    at most two rows are added, and no other session is touched. *)
Theorem history_append_only mensaje_usuario session_id w o w' :
  chat_con_agente mensaje_usuario session_id w = (o, w') ->
  rows session_id (table w) `prefix_of` rows session_id (table w') /\
  length (rows session_id (table w')) <= length (rows session_id (table w)) + 2 /\
  forall other, other <> session_id -> table w' !! other = table w !! other.
Proof.
  intros Hrun. apply run_cycle in Hrun as (written & Hcycle & ->).
  apply cycle_written_length in Hcycle.
  rewrite rows_persisted, length_app.
  split; [by apply prefix_app_r|]. split; [lia|].
  intros other Hne. by apply lookup_persisted_ne.
Qed.

(** X2. A cycle that raises leaves the table as it was, unless both inserts
    were attempted: then the exception is the one of the insert of the
    assistant row, the last event of the cycle, and exactly the user row
    was added. *)
Theorem raise_keeps_at_most_user_turn mensaje_usuario session_id w e w' :
  chat_con_agente mensaje_usuario session_id w = (Raise e, w') ->
  (length (sent (events_since w w')) < 2 -> table w' = table w) /\
  (length (sent (events_since w w')) = 2 ->
   rows session_id (table w') =
     rows session_id (table w) ++ [HumanMessage mensaje_usuario] /\
   exists respuesta_final,
     last (events_since w w') =
       Some (EPg (PgInsert table_name session_id (AIMessage respuesta_final []))
               (Some e))).
Proof.
  intros Hrun. apply run_cycle in Hrun as (written & Hcycle & ->).
  revert Hcycle. generalize (events_since w w'). intros evs Hcycle.
  assert (forall t, rows session_id
                      (<[session_id := rows session_id t ++ [HumanMessage mensaje_usuario]]> t) =
                    rows session_id t ++ [HumanMessage mensaje_usuario]) as Hrows
    by (intros t; unfold rows at 1; by rewrite lookup_insert_eq).
  cycle_paths Hcycle.
  all: split; [intros; first [done | lia] | intros; try lia].
  all: split; [by rewrite Hrows|]; eexists.
  all: first [ reflexivity | rewrite !app_comm_cons; apply last_app_two ].
Qed.


(** X3. The invocations fail fast: when a tool raises, that invocation is
    the last event of the cycle, the cycle ends with its exception, the
    model was called once only, and no row was sent to the table. *)
Theorem tool_failure_ends_cycle mensaje_usuario session_id w o w' :
  chat_con_agente mensaje_usuario session_id w = (o, w') ->
  existsb tool_failed (events_since w w') = true ->
  exists evs tool_call e,
    events_since w w' = evs ++ [ETool tool_call (inl e)] /\
    existsb tool_failed evs = false /\
    o = Raise e /\
    length (completions (events_since w w')) = 1 /\
    sent (events_since w w') = [].
Proof.
  intros Hrun. apply run_cycle in Hrun as (written & Hcycle & _).
  revert Hcycle. generalize (events_since w w'). intros evs Hcycle Hfail.
  cycle_paths Hcycle; try done.
  eexists (_ :: _ :: _ :: ok_events done), _, _.
  split; [reflexivity|]. simpl. by autorewrite with trace.
Qed.

(** X4. When no invocation raises, the requests of the first completion
    that name a registered tool are invoked exactly once each, in the order
    of the requests, and every invocation returned. *)
Theorem registered_requests_invoked mensaje_usuario session_id w o w' response :
  chat_con_agente mensaje_usuario session_id w = (o, w') ->
  head (completions (events_since w w')) = Some (inr response) ->
  existsb tool_failed (events_since w w') = false ->
  invoked (events_since w w') = filter (registered tools) (tool_calls response) /\
  Forall (fun p => exists s, p.2 = inr s) (invocations (events_since w w')).
Proof.
  intros Hrun. apply run_cycle in Hrun as (written & Hcycle & _).
  revert Hcycle. generalize (events_since w w'). intros evs Hcycle Hhead Hok.
  pose proof ok_events_returned as Hret.
  cycle_paths Hcycle; try done.
  all: try match goal with H : tool_calls _ = [] |- _ => rewrite H end.
  all: try (split; [done | by constructor]).
  all: split; [done|]; rewrite <- invocations_ok_events; apply Hret.
Qed.

(** X5. In a cycle the history is read first and written last: the events
    are database operations that are no insert, then calls to the model
    and tool invocations only, then inserts only. *)
Theorem history_read_first_written_last mensaje_usuario session_id w o w' :
  chat_con_agente mensaje_usuario session_id w = (o, w') ->
  exists reads calls writes,
    events_since w w' = reads ++ calls ++ writes /\
    Forall (fun ev => negb (is_call ev) && negb (is_insert ev)) reads /\
    Forall is_call calls /\
    Forall is_insert writes.
Proof.
  intros Hrun. apply run_cycle in Hrun as (written & Hcycle & _).
  revert Hcycle. generalize (events_since w w'). intros evs Hcycle.
  pose proof ok_events_calls as Hcalls.
  inversion Hcycle as [ | | ? ? Hres | ? ? ? ? ? Hres Hsav ]; subst; clear Hcycle.
  - eexists [_], [], []. by repeat constructor.
  - eexists [_; _], [], []. by repeat constructor.
  - eexists [_; _], _, []. rewrite app_nil_r. split; [reflexivity|].
    split; [by repeat constructor|]. split; [|constructor].
    inversion Hres; subst; repeat first [constructor | apply Forall_app; split]; done.
  - eexists [_; _], _, _. split; [reflexivity|].
    split; [by repeat constructor|]. split.
    + inversion Hres; subst; repeat first [constructor | apply Forall_app; split]; done.
    + inversion Hsav; by repeat constructor.
Qed.

(** X6. The database operations of a cycle are, in this order and each at
    most once, a connect, the select of the session, the insert of the
    user row and the insert of the assistant row, all on the session of
    the cycle: nothing is closed, no other session is read or written; a
    cycle that returns made the four of them. *)
Theorem cycle_database_operations mensaje_usuario session_id w o w' :
  chat_con_agente mensaje_usuario session_id w = (o, w') ->
  exists respuesta_final,
    pg_ops (events_since w w') `prefix_of`
      [PgConnect; PgSelect table_name session_id;
       PgInsert table_name session_id (HumanMessage mensaje_usuario);
       PgInsert table_name session_id (AIMessage respuesta_final [])] /\
    (forall respuesta,
       o = Ok respuesta ->
       respuesta = respuesta_final /\
       pg_ops (events_since w w') =
         [PgConnect; PgSelect table_name session_id;
          PgInsert table_name session_id (HumanMessage mensaje_usuario);
          PgInsert table_name session_id (AIMessage respuesta_final [])]).
Proof.
  intros Hrun. apply run_cycle in Hrun as (written & Hcycle & _).
  revert Hcycle. generalize (events_since w w'). intros evs Hcycle.
  cycle_paths Hcycle.
  all: try (eexists; split; [reflexivity | intros; by simplify_eq]).
  all: exists ""; split; [|intros; by simplify_eq].
  all: by repeat apply prefix_cons; apply prefix_nil.
Qed.


Lemma first_context mensaje_usuario session_id w o w' messages :
  chat_con_agente mensaje_usuario session_id w = (o, w') ->
  head (submitted (events_since w w')) = Some messages ->
  messages = construir_mensajes (rows session_id (table w)) mensaje_usuario.
Proof.
  intros Hrun. apply run_cycle in Hrun as (written & Hcycle & _).
  revert Hcycle. generalize (events_since w w'). intros evs Hcycle Hhead.
  cycle_paths Hcycle; done.
Qed.

Lemma returned_cycle mensaje_usuario session_id w respuesta w' :
  chat_con_agente mensaje_usuario session_id w = (Ok respuesta, w') ->
  rows session_id (table w') =
    rows session_id (table w) ++ [HumanMessage mensaje_usuario; AIMessage respuesta []] /\
  head (submitted (events_since w w')) =
    Some (construir_mensajes (rows session_id (table w)) mensaje_usuario).
Proof.
  intros Hrun. apply run_cycle in Hrun as (written & Hcycle & ->).
  rewrite rows_persisted.
  revert Hcycle. generalize (events_since w w'). intros evs Hcycle.
  cycle_paths Hcycle; done.
Qed.

(** X7. The agent remembers: after a cycle that returned, the next cycle
    on the same session submits, as its first context, the first context
    of the previous cycle followed by the previous reply as an assistant
    turn and the new utterance as a user turn. *)
Theorem next_cycle_remembers mensaje1 mensaje2 session_id w respuesta1 w1 o2 w2 messages2 :
  chat_con_agente mensaje1 session_id w = (Ok respuesta1, w1) ->
  chat_con_agente mensaje2 session_id w1 = (o2, w2) ->
  head (submitted (events_since w1 w2)) = Some messages2 ->
  exists messages1,
    head (submitted (events_since w w1)) = Some messages1 /\
    messages2 = messages1 ++ [Dict "assistant" respuesta1; Dict "user" mensaje2].
Proof.
  intros Hrun1 Hrun2 Hhead.
  apply returned_cycle in Hrun1 as [Hrows Hfirst].
  apply (first_context _ _ _ _ _ _ Hrun2) in Hhead as ->.
  eexists. split; [exact Hfirst|].
  rewrite Hrows. unfold construir_mensajes.
  rewrite foldl_app. simpl. by rewrite <- !app_assoc.
Qed.

(** X8. A session with no stored row is a new conversation, not an error:
    the first context of its cycle is the system instruction and the
    utterance, nothing else. *)
Theorem unknown_session_starts_empty mensaje_usuario session_id w o w' messages :
  chat_con_agente mensaje_usuario session_id w = (o, w') ->
  table w !! session_id = None ->
  head (submitted (events_since w w')) = Some messages ->
  messages = [Dict "system" system_prompt; Dict "user" mensaje_usuario].
Proof.
  intros Hrun Hnone Hhead.
  apply (first_context _ _ _ _ _ _ Hrun) in Hhead as ->.
  unfold rows. by rewrite Hnone.
Qed.

(** X9. When several registered tools have the requested name, the first
    one in the registry is the one invoked, once, and the tools after it
    are not consulted. *)
Theorem first_registered_tool_wins (before : list (@Tool Env)) t after tool_call tool_results w :
  name t = tc_name tool_call ->
  tc_name tool_call ∉ map name before ->
  buscar_y_ejecutar (before ++ t :: after) tool_call tool_results w =
    (result ← tool_invoke t tool_call;
     mret (tool_results ++ [mkToolResult (tc_id tool_call) result])) w.
Proof.
  intros Hname Hnot. induction before as [|t' before IH]; simpl.
  - by destruct (decide (name t = tc_name tool_call)).
  - simpl in Hnot. apply not_elem_of_cons in Hnot as [Hne Hnot].
    destruct (decide (name t' = tc_name tool_call)); [congruence|]. by apply IH.
Qed.

End CycleExtras.

(** ** More on the table initialisation *)

Section CrearTabla.

Context {Env : Type}.
Variable psycopg : PgOp -> Env -> option PyExc * Env.

Implicit Types (w : @World Env) (evs : list Event).

(** The four ways [crear_tabla_historial] can go. *)
Lemma crear_tabla_historial_paths w :
  exists env' evs,
    crear_tabla_historial psycopg w = (Ok tt, mkWorld env' (table w) (trace w ++ evs)) /\
    ((exists e, evs = [EPg PgConnect (Some e);
                       EPrint ("⚠️ Nota sobre tabla: " +:+ exc_str e)]) \/
     (exists e, evs = [EPg PgConnect None; EPg (PgCreateTables table_name) (Some e);
                       EPrint ("⚠️ Nota sobre tabla: " +:+ exc_str e)]) \/
     (exists e, evs = [EPg PgConnect None; EPg (PgCreateTables table_name) None;
                       EPg PgClose (Some e);
                       EPrint ("⚠️ Nota sobre tabla: " +:+ exc_str e)]) \/
     evs = [EPg PgConnect None; EPg (PgCreateTables table_name) None; EPg PgClose None]).
Proof.
  unfold crear_tabla_historial, try_except. rewrite !bind_run.
  destruct (pg_run psycopg PgConnect w) as ([e|] & env1 & ->).
  { unfold print, emit. simpl. eexists env1, _. rewrite <- app_assoc.
    split; [reflexivity|]. left. by exists e. }
  rewrite !bind_run. set (w1 := mkWorld env1 _ _).
  destruct (pg_run psycopg (PgCreateTables table_name) w1) as ([e|] & env2 & ->).
  { unfold print, emit. subst w1. simpl. eexists env2, _. rewrite <- !app_assoc.
    split; [reflexivity|]. right. left. by exists e. }
  set (w2 := mkWorld env2 _ _).
  destruct (pg_run psycopg PgClose w2) as ([e|] & env3 & ->).
  { unfold print, emit. subst w2 w1. simpl. eexists env3, _. rewrite <- !app_assoc.
    split; [reflexivity|]. right. right. left. by exists e. }
  subst w2 w1. simpl. eexists env3, _. rewrite <- !app_assoc.
  split; [reflexivity|]. by repeat right.
Qed.

(** X10. [crear_tabla_historial] stops at the first operation that raises:
    its database operations are a prefix of connect, create tables, close;
    the connection it opened is closed only when the table creation went
    through, so it stays open when the creation raises; and it calls
    neither the model nor a tool and sends no row. *)
Theorem crear_tabla_historial_operations w :
  let evs := events_since w (crear_tabla_historial psycopg w).2 in
  pg_ops evs `prefix_of` [PgConnect; PgCreateTables table_name; PgClose] /\
  (PgClose ∈ pg_ops evs <->
   EPg PgConnect None ∈ evs /\ EPg (PgCreateTables table_name) None ∈ evs) /\
  completions evs = [] /\ invoked evs = [] /\ sent evs = [].
Proof.
  destruct (crear_tabla_historial_paths w) as (env' & evs & -> & Hpaths).
  cbn zeta. simpl snd. rewrite events_since_app.
  destruct Hpaths as [[e ->]|[[e ->]|[[e ->]| ->]]]; simpl.
  all: split; [by repeat apply prefix_cons; apply prefix_nil|].
  all: split; [|done].
  all: rewrite ?elem_of_cons, ?elem_of_nil; intuition congruence.
Qed.

End CrearTabla.

(** ** The database configuration *)

Section ConfigProperties.

Context {Env : Type}.
Variable quote_plus : string -> string.

Implicit Types (w : @World Env) (environ : gmap string string).

Lemma truthy_spec (v : option string) :
  truthy v = true <-> exists s, v = Some s /\ s <> "".
Proof.
  destruct v as [s|]; simpl.
  - rewrite negb_true_iff. split.
    + intros Hne. exists s. split; [done|]. intros ->. by rewrite String.eqb_refl in Hne.
    + intros (s' & [= <-] & Hne). by apply String.eqb_neq.
  - split; [done | by intros (? & ? & ?)].
Qed.

(** X11. The configuration fails exactly when [DB_USER], [DB_PASSWORD] or
    [DB_HOST] is not set or is set to the empty string: then it raises a
    [ValueError] before anything is printed; otherwise it returns, having
    printed one line. *)
Theorem configurar_requires environ w :
  (exists key,
     key ∈ ["DB_USER"; "DB_PASSWORD"; "DB_HOST"] /\
     (environ !! key = None \/ environ !! key = Some "")) /\
  (exists e, configurar quote_plus environ w = (Raise e, w) /\ exc_type e = "ValueError")
  \/
  (forall key,
     key ∈ ["DB_USER"; "DB_PASSWORD"; "DB_HOST"] ->
     exists s, environ !! key = Some s /\ s <> "") /\
  (exists cfg line,
     configurar quote_plus environ w = (Ok cfg, emit (EPrint line) w)).
Proof.
  unfold configurar. cbv zeta.
  match goal with |- context [negb ?b] => destruct b eqn:Hall end; simpl negb; cbv iota.
  - right. split; [|eexists _, _; reflexivity].
    simpl in Hall. rewrite !andb_true_iff in Hall.
    destruct Hall as (Huser & Hpw & Hhost & _).
    intros key Hkey. apply truthy_spec.
    rewrite !elem_of_cons, elem_of_nil in Hkey.
    destruct Hkey as [->|[->|[->|[]]]]; done.
  - left. split; [|eexists; split; reflexivity].
    simpl in Hall. rewrite andb_true_r, !andb_false_iff in Hall.
    assert (forall key, truthy (os_getenv environ key) = false ->
                        environ !! key = None \/ environ !! key = Some "") as Hfalsy.
    { intros key. unfold os_getenv. destruct (environ !! key) as [s|]; [|by left].
      simpl. rewrite negb_false_iff, String.eqb_eq. intros ->. by right. }
    destruct Hall as [Hf|[Hf|Hf]]; apply Hfalsy in Hf;
      eexists; (split; [|exact Hf]); rewrite !elem_of_cons; tauto.
Qed.

Lemma truthy_nonempty s : s <> "" -> truthy (Some s) = true.
Proof. intros Hne. apply truthy_spec. by exists s. Qed.

(** X12. The password does not reach the console: two environments that
    differ in [DB_PASSWORD] only, non-empty in both, leave the same trace,
    and the configuration returns in the one exactly when it returns in the
    other. *)
Theorem password_not_printed environ password1 password2 w :
  password1 <> "" ->
  password2 <> "" ->
  let run1 := configurar quote_plus (<["DB_PASSWORD" := password1]> environ) w in
  let run2 := configurar quote_plus (<["DB_PASSWORD" := password2]> environ) w in
  trace run1.2 = trace run2.2 /\
  ((exists cfg, run1.1 = Ok cfg) <-> (exists cfg, run2.1 = Ok cfg)).
Proof.
  intros Hne1 Hne2. cbv zeta. unfold configurar, os_getenv, os_getenv_default.
  cbv zeta.
  rewrite !lookup_insert_eq, !lookup_insert_ne by done.
  cbn [forallb]. rewrite !truthy_nonempty by done.
  destruct (truthy (environ !! "DB_USER")); [|by split].
  destruct (truthy (environ !! "DB_HOST")); [|by split].
  simpl. split; [done|]. split; intros _; by eexists.
Qed.

End ConfigProperties.

(** ** The session menu and the conversation loop *)

Section MainMore.

Context {Env UUID : Type}.
Variable chat_con_tools : list ContextItem -> Env -> (PyExc + ModelResponse) * Env.
Variable tools : list (@Tool Env).
Variable psycopg : PgOp -> Env -> option PyExc * Env.
Variable input : string -> Env -> (PyExc + string) * Env.
Variable strip lower : string -> string.
Variable uuid_UUID : string -> option UUID.
Variable uuid_str : UUID -> string.
Variable uuid4 : Env -> UUID * Env.

Implicit Types (w : @World Env) (evs : list Event).

Local Abbreviation chat_con_agente := (chat_con_agente chat_con_tools tools psycopg).

(** X13. A pasted identifier that [uuid.UUID] accepts is used as it was
    typed, blanks stripped: it is not rewritten in canonical form, no
    identifier is drawn and nothing is printed. *)
Theorem valid_session_id_kept w opcion pegado env1 env2 :
  input (nl +:+ "Elige (1/2): ") (env w) = (inr opcion, env1) ->
  strip opcion = "2" ->
  input "Pega el UUID de la sesión: " env1 = (inr pegado, env2) ->
  is_Some (uuid_UUID (strip pegado)) ->
  main_session input strip uuid_UUID uuid_str uuid4 w =
    (Ok (strip pegado), mkWorld env2 (table w) (trace w)).
Proof.
  intros Hopcion Hdos Hpegado [u Hu].
  unfold main_session.
  rewrite bind_run. unfold input_line at 1. rewrite Hopcion. simpl. rewrite Hdos.
  destruct (decide ("2" = "2")) as [_|]; [|done].
  rewrite bind_run. unfold input_line. simpl. rewrite Hpegado. simpl.
  by rewrite Hu.
Qed.

(** X14. Any answer to the menu other than "2" starts a new session: the
    identifier is drawn by [uuid4] at once, no second line is read and
    nothing is printed. *)
Theorem other_option_new_session w opcion env1 :
  input (nl +:+ "Elige (1/2): ") (env w) = (inr opcion, env1) ->
  strip opcion <> "2" ->
  main_session input strip uuid_UUID uuid_str uuid4 w =
    (Ok (uuid_str (uuid4 env1).1), mkWorld (uuid4 env1).2 (table w) (trace w)).
Proof.
  intros Hopcion Hotra.
  unfold main_session.
  rewrite bind_run. unfold input_line at 1. rewrite Hopcion. simpl.
  destruct (decide (strip opcion = "2")); [done|].
  unfold str_uuid4. simpl. by destruct (uuid4 env1).
Qed.


Local Abbreviation loop := (main_loop chat_con_tools tools psycopg input strip lower).

(** One turn of the loop, case by case. *)
Lemma main_loop_step fuel session_id w :
  loop (S fuel) session_id w =
  let w0 := mkWorld (input "Tú: " (env w)).2 (table w) (trace w) in
  match (input "Tú: " (env w)).1 with
  | inl e => (Raise e, w0)
  | inr line =>
      let usuario := strip line in
      if decide (lower usuario ∈ ["salir"; "exit"; "quit"]) then
        (Ok true,
         mkWorld (env w0) (table w0)
           (trace w0 ++ [EPrint (nl +:+ "💾 Tu sesión está guardada.");
                         EPrint ("   UUID: " +:+ session_id);
                         EPrint "👋 ¡Hasta luego!"]))
      else if decide (usuario = "") then loop fuel session_id w0
      else
        let run := chat_con_agente usuario session_id w0 in
        loop fuel session_id
          (emit (EPrint (match run.1 with
                         | Ok respuesta => nl +:+ "🤖 DataBot: " +:+ respuesta +:+ nl
                         | Raise e => nl +:+ "❌ Error: " +:+ exc_str e +:+ nl
                         end)) run.2)
  end.
Proof.
  cbv zeta. simpl main_loop. rewrite bind_run. unfold input_line.
  destruct (input "Tú: " (env w)) as [[e|line] env1]; simpl; [done|].
  destruct (decide (lower (strip line) ∈ ["salir"; "exit"; "quit"])).
  { rewrite !print_bind. unfold emit. simpl. by rewrite <- !app_assoc. }
  destruct (decide (strip line = "")); [done|].
  rewrite bind_run. unfold try_except. rewrite bind_run.
  destruct (chat_con_agente _ _ _) as [[respuesta|e] w1]; reflexivity.
Qed.

(** What every turn keeps, the whole loop keeps. *)
Lemma main_loop_invariant (R : @World Env -> @World Env -> Prop) session_id :
  (forall w, R w w) ->
  (forall w1 w2 w3, R w1 w2 -> R w2 w3 -> R w1 w3) ->
  (forall w env', R w (mkWorld env' (table w) (trace w))) ->
  (forall w env' evs,
     Forall (fun ev => exists line, ev = EPrint line) evs ->
     R w (mkWorld env' (table w) (trace w ++ evs))) ->
  (forall usuario w o w',
     usuario <> "" ->
     lower usuario ∉ ["salir"; "exit"; "quit"] ->
     chat_con_agente usuario session_id w = (o, w') ->
     R w w') ->
  forall fuel w o w', loop fuel session_id w = (o, w') -> R w w'.
Proof.
  intros Hrefl Htrans Hinput Hprint Hcycle.
  induction fuel as [|fuel IH]; intros w o w' Hrun.
  { injection Hrun as _ <-. apply Hrefl. }
  rewrite main_loop_step in Hrun. cbv zeta in Hrun.
  destruct (input "Tú: " (env w)) as [[e|line] env1]; simpl in Hrun.
  { injection Hrun as _ <-. apply Hinput. }
  destruct (decide (lower (strip line) ∈ ["salir"; "exit"; "quit"])).
  { injection Hrun as _ <-. apply Hprint. repeat constructor; by eexists. }
  destruct (decide (strip line = "")).
  { eapply Htrans; [apply Hinput | by eapply IH]. }
  destruct (chat_con_agente _ _ _) as [o1 w1] eqn:Hchat.
  eapply Htrans; [apply Hinput|].
  eapply Htrans; [by eapply Hcycle|].
  eapply Htrans; [|by eapply IH].
  destruct w1 as [env1' t1 tr1]. apply (Hprint (mkWorld env1' t1 tr1) env1' [_]).
  repeat constructor; by eexists.
Qed.


Lemma cycle_loop_ops usuario session_id w o w' :
  usuario <> "" ->
  lower usuario ∉ ["salir"; "exit"; "quit"] ->
  chat_con_agente usuario session_id w = (o, w') ->
  exists evs,
    trace w' = trace w ++ evs /\ Forall (loop_op lower session_id) (pg_ops evs).
Proof.
  intros Hne Hexit Hrun.
  destruct (chat_con_agente_cycle chat_con_tools tools psycopg usuario session_id w)
    as (evs & o' & written & env' & Hcycle & Heq).
  rewrite Hrun in Heq. injection Heq as -> ->.
  exists evs. split; [done|].
  cycle_paths Hcycle; repeat constructor; done.
Qed.

Lemma main_loop_raise fuel session_id w e w' :
  loop fuel session_id w = (Raise e, w') ->
  exists env0, (input "Tú: " env0).1 = inl e.
Proof.
  revert w. induction fuel as [|fuel IH]; intros w Hrun; [done|].
  rewrite main_loop_step in Hrun. cbv zeta in Hrun.
  destruct (input "Tú: " (env w)) as [[e0|line] env1] eqn:Hinput; simpl in Hrun.
  { injection Hrun as -> _. exists (env w). by rewrite Hinput. }
  destruct (decide (lower (strip line) ∈ ["salir"; "exit"; "quit"])); [done|].
  destruct (decide (strip line = "")); by eapply IH.
Qed.

Lemma main_session_raise w e w' :
  main_session input strip uuid_UUID uuid_str uuid4 w = (Raise e, w') ->
  exists prompt env0, (input prompt env0).1 = inl e.
Proof.
  unfold main_session. rewrite bind_run. unfold input_line at 1.
  destruct (input (nl +:+ "Elige (1/2): ") (env w)) as [[e0|opcion] env1] eqn:Hopcion;
    simpl.
  { intros [= -> _]. exists (nl +:+ "Elige (1/2): "), (env w). by rewrite Hopcion. }
  destruct (decide (strip opcion = "2")).
  - rewrite bind_run. unfold input_line. simpl.
    destruct (input "Pega el UUID de la sesión: " env1) as [[e1|pegado] env2] eqn:Hpegado;
      simpl.
    { intros [= -> _]. exists "Pega el UUID de la sesión: ", env1. by rewrite Hpegado. }
    destruct (uuid_UUID (strip pegado)); [done|].
    rewrite print_bind. unfold str_uuid4. simpl. by destruct (uuid4 env2).
  - unfold str_uuid4. simpl. by destruct (uuid4 env1).
Qed.

(** X15. The program does not crash on a failed turn: an exception of a
    resolution cycle never leaves [main], which ends with an exception only
    when [input] raises one at a prompt. *)
Theorem main_raises_only_input fuel w e w' :
  main chat_con_tools tools psycopg input strip lower uuid_UUID uuid_str uuid4 fuel w =
    (Raise e, w') ->
  exists prompt env0, (input prompt env0).1 = inl e.
Proof.
  unfold main. rewrite bind_run.
  destruct (main_banner_run tools w) as (evs & ->).
  rewrite bind_run.
  destruct (main_session input strip uuid_UUID uuid_str uuid4 _)
    as [[session_id|e0] w1] eqn:Hsession.
  - rewrite !print_bind. intros Hloop.
    apply main_loop_raise in Hloop as [env0 Hinput]. by exists "Tú: ", env0.
  - intros [= -> _]. by eapply main_session_raise.
Qed.

(** X16. A conversation only ever adds to the history of its own session:
    whatever is typed and whatever fails, the rows the session had are a
    prefix of the rows it has afterwards, and the rows of every other
    session are as they were. *)
Theorem main_loop_keeps_history fuel session_id w o w' :
  loop fuel session_id w = (o, w') ->
  rows session_id (table w) `prefix_of` rows session_id (table w') /\
  forall other, other <> session_id -> table w' !! other = table w !! other.
Proof.
  apply (main_loop_invariant
           (fun w w' =>
              rows session_id (table w) `prefix_of` rows session_id (table w') /\
              forall other, other <> session_id -> table w' !! other = table w !! other)).
  - done.
  - intros w1 w2 w3 [Hpre12 Hother12] [Hpre23 Hother23]. split; [by etrans|].
    intros other Hne. by rewrite Hother23, Hother12.
  - done.
  - done.
  - intros usuario w0 o0 w0' _ _ Hrun.
    destruct (chat_con_agente_cycle chat_con_tools tools psycopg usuario session_id w0)
      as (evs & o' & written & env' & _ & Heq).
    rewrite Hrun in Heq. injection Heq as -> ->. simpl.
    rewrite rows_persisted. split; [by apply prefix_app_r|].
    intros other Hne. by apply lookup_persisted_ne.
Qed.

(** X17. The database operations of a conversation are connects, selects
    of its session and inserts of plain turns into its session; it never
    closes a connection nor creates a table, and no empty line and no exit
    word is ever stored as a user turn. *)
Theorem main_loop_database_operations fuel session_id w o w' :
  loop fuel session_id w = (o, w') ->
  Forall (loop_op lower session_id) (pg_ops (events_since w w')).
Proof.
  intros Hrun.
  assert (exists evs,
            trace w' = trace w ++ evs /\
            Forall (loop_op lower session_id) (pg_ops evs)) as (evs & Htrace & Hops).
  { revert fuel w o w' Hrun.
    apply (main_loop_invariant
             (fun w w' =>
                exists evs,
                  trace w' = trace w ++ evs /\
                  Forall (loop_op lower session_id) (pg_ops evs))).
    - intros w0. exists []. by rewrite app_nil_r.
    - intros w1 w2 w3 (evs12 & H12 & Hops12) (evs23 & H23 & Hops23).
      exists (evs12 ++ evs23). rewrite H23, H12, <- app_assoc. split; [done|].
      rewrite pg_ops_app. by apply Forall_app.
    - intros w0 env'. exists []. by rewrite app_nil_r.
    - intros w0 env' evs Hprints. exists evs. split; [done|].
      induction Hprints as [|ev evs [line ->] _ IH]; [constructor | exact IH].
    - intros usuario w0 o0 w0' Hne Hexit Hcycle. by eapply cycle_loop_ops. }
  unfold events_since. rewrite Htrace, drop_app_length. exact Hops.
Qed.

(** X18. An exit word ends the conversation at once: the loop returns
    through its break, having called neither the model, nor a tool, nor the
    database, with the table as it was and the session identifier printed
    for a later conversation. *)
Theorem exit_word_ends_conversation fuel session_id w line env1 :
  input "Tú: " (env w) = (inr line, env1) ->
  lower (strip line) ∈ ["salir"; "exit"; "quit"] ->
  exists w',
    loop (S fuel) session_id w = (Ok true, w') /\
    table w' = table w /\
    printed (events_since w w') =
      [nl +:+ "💾 Tu sesión está guardada."; "   UUID: " +:+ session_id;
       "👋 ¡Hasta luego!"] /\
    completions (events_since w w') = [] /\
    invoked (events_since w w') = [] /\
    pg_ops (events_since w w') = [].
Proof.
  intros Hinput Hexit. rewrite main_loop_step. cbv zeta. rewrite Hinput. simpl.
  destruct (decide (lower (strip line) ∈ ["salir"; "exit"; "quit"])); [|done].
  eexists. split; [reflexivity|]. by rewrite events_since_app.
Qed.

End MainMore.

(** ** The further properties on concrete conversations *)

Lemma history_append_only_witness :
  rows Sim.session (table (Sim.world [])) `prefix_of` rows Sim.session (table Sim.cursos.2) /\
  length (rows Sim.session (table Sim.cursos.2)) <=
    length (rows Sim.session (table (Sim.world []))) + 2.
Proof.
  assert (Sim.cursos = (Sim.cursos.1, Sim.cursos.2)) as Hrun by apply surjective_pairing.
  destruct (history_append_only _ _ _ _ _ _ _ _ Hrun) as (Hpre & Hlen & _).
  split; [exact Hpre | exact Hlen].
Defined.

Lemma raise_keeps_at_most_user_turn_witness :
  length (sent (events_since (Sim.world []) Sim.hola_no_ai.2)) = 2 /\
  rows Sim.session (table Sim.hola_no_ai.2) =
    rows Sim.session (table (Sim.world [])) ++ [HumanMessage "Hola"].
Proof.
  assert (Sim.hola_no_ai =
          (Raise (mkExc "OperationalError" "connection lost"), Sim.hola_no_ai.2)) as Hrun
    by (etrans; [apply surjective_pairing|]; f_equal; vm_compute; reflexivity).
  assert (length (sent (events_since (Sim.world []) Sim.hola_no_ai.2)) = 2) as Hsent
    by (vm_compute; reflexivity).
  split; [exact Hsent|].
  destruct (raise_keeps_at_most_user_turn _ _ _ _ _ _ _ _ Hrun) as (_ & Htwo).
  exact (proj1 (Htwo Hsent)).
Defined.

Lemma tool_failure_ends_cycle_witness :
  existsb tool_failed (events_since (Sim.world []) Sim.cursos_down.2) = true /\
  length (completions (events_since (Sim.world []) Sim.cursos_down.2)) = 1 /\
  sent (events_since (Sim.world []) Sim.cursos_down.2) = [].
Proof.
  assert (Sim.cursos_down = (Sim.cursos_down.1, Sim.cursos_down.2)) as Hrun by apply surjective_pairing.
  assert (existsb tool_failed (events_since (Sim.world []) Sim.cursos_down.2) = true)
    as Hfail by (vm_compute; reflexivity).
  split; [exact Hfail|].
  destruct (tool_failure_ends_cycle _ _ _ _ _ _ _ _ Hrun Hfail)
    as (evs & tc & e & _ & _ & _ & Hone & Hsent).
  split; [exact Hone | exact Hsent].
Defined.

Lemma registered_requests_invoked_witness :
  existsb tool_failed (events_since (Sim.world []) Sim.internet.2) = false /\
  invoked (events_since (Sim.world []) Sim.internet.2) =
    filter (registered [Sim.buscar_datapath Sim.kb]) (tool_calls Sim.internet_request).
Proof.
  assert (Sim.internet = (Sim.internet.1, Sim.internet.2)) as Hrun by apply surjective_pairing.
  assert (head (completions (events_since (Sim.world []) Sim.internet.2)) =
          Some (inr Sim.internet_request)) as Hhead by (vm_compute; reflexivity).
  assert (existsb tool_failed (events_since (Sim.world []) Sim.internet.2) = false)
    as Hok by (vm_compute; reflexivity).
  split; [exact Hok|].
  exact (proj1 (registered_requests_invoked _ _ _ _ _ _ _ _ _ Hrun Hhead Hok)).
Defined.

Lemma history_read_first_written_last_witness :
  exists reads calls writes,
    events_since (Sim.world []) Sim.cursos.2 = reads ++ calls ++ writes /\
    Forall (fun ev => negb (is_call ev) && negb (is_insert ev)) reads /\
    Forall is_call calls /\
    Forall is_insert writes.
Proof.
  assert (Sim.cursos = (Sim.cursos.1, Sim.cursos.2)) as Hrun by apply surjective_pairing.
  exact (history_read_first_written_last _ _ _ _ _ _ _ _ Hrun).
Defined.

Lemma cycle_database_operations_witness :
  pg_ops (events_since (Sim.world []) Sim.cursos.2) =
    [PgConnect; PgSelect table_name Sim.session;
     PgInsert table_name Sim.session (HumanMessage "¿Qué cursos tienen?");
     PgInsert table_name Sim.session (AIMessage "Tenemos programas de IA." [])].
Proof.
  assert (Sim.cursos = (Ok "Tenemos programas de IA.", Sim.cursos.2)) as Hrun
    by (etrans; [apply surjective_pairing|]; f_equal; vm_compute; reflexivity).
  destruct (cycle_database_operations _ _ _ _ _ _ _ _ Hrun) as (respuesta & _ & Hok).
  destruct (Hok _ eq_refl) as [<- Hops]. exact Hops.
Defined.

Lemma next_cycle_remembers_witness :
  exists messages1,
    head (submitted (events_since (Sim.world []) Sim.charla1.2)) = Some messages1 /\
    head (submitted (events_since Sim.charla1.2 Sim.charla2.2)) =
      Some (messages1 ++ [Dict "assistant" "¡Hola! Soy DataBot."; Dict "user" "Gracias"]).
Proof.
  assert (Sim.charla1 = (Ok "¡Hola! Soy DataBot.", Sim.charla1.2)) as Hrun1
    by (etrans; [apply surjective_pairing|]; f_equal; vm_compute; reflexivity).
  assert (Sim.charla2 = (Sim.charla2.1, Sim.charla2.2)) as Hrun2 by apply surjective_pairing.
  assert (exists messages2,
            head (submitted (events_since Sim.charla1.2 Sim.charla2.2)) = Some messages2)
    as [messages2 Hhead] by (eexists; vm_compute; reflexivity).
  destruct (next_cycle_remembers _ _ _ _ _ _ _ _ _ _ _ _ Hrun1 Hrun2 Hhead)
    as (messages1 & Hfirst & ->).
  exists messages1. split; [exact Hfirst | exact Hhead].
Defined.

Lemma unknown_session_starts_empty_witness :
  table (Sim.world []) !! Sim.session = None /\
  head (submitted (events_since (Sim.world []) Sim.hola.2)) =
    Some [Dict "system" system_prompt; Dict "user" "Hola"].
Proof.
  assert (Sim.hola = (Sim.hola.1, Sim.hola.2)) as Hrun by apply surjective_pairing.
  assert (table (Sim.world []) !! Sim.session = None) as Hnone by reflexivity.
  split; [exact Hnone|].
  assert (exists messages,
            head (submitted (events_since (Sim.world []) Sim.hola.2)) = Some messages)
    as [messages Hhead] by (eexists; vm_compute; reflexivity).
  rewrite Hhead. f_equal.
  exact (unknown_session_starts_empty _ _ _ _ _ _ _ _ _ Hrun Hnone Hhead).
Defined.

Lemma first_registered_tool_wins_witness :
  (buscar_y_ejecutar Sim.tools_twice Sim.lookup_call [] (Sim.world [])).1 =
    Ok [mkToolResult "call_1" Sim.kb].
Proof.
  assert (tc_name Sim.lookup_call ∉ map name ([] : list (@Tool Sim.State))) as Hnot
    by apply not_elem_of_nil.
  etrans;
    [ exact (f_equal fst
               (first_registered_tool_wins [] (Sim.buscar_datapath Sim.kb)
                  [Sim.buscar_datapath_down] Sim.lookup_call [] (Sim.world [])
                  eq_refl Hnot))
    | vm_compute; reflexivity ].
Defined.

Lemma password_not_printed_witness :
  trace (configurar Sim.quote_plus (<["DB_PASSWORD" := "secreto"]> Sim.environ)
           (Sim.world [])).2 =
  trace (configurar Sim.quote_plus (<["DB_PASSWORD" := "otra clave"]> Sim.environ)
           (Sim.world [])).2.
Proof.
  refine (proj1 (password_not_printed Sim.quote_plus Sim.environ "secreto" "otra clave"
                   (Sim.world []) _ _)); discriminate.
Defined.

Lemma valid_session_id_kept_witness :
  (main_session Sim.input Sim.strip Sim.uuid_UUID Sim.uuid_str Sim.uuid4
     (Sim.world ["2"; " 0F8FAD5B-D9CB-469F-A165-70867728950E "])).1 =
    Ok "0F8FAD5B-D9CB-469F-A165-70867728950E".
Proof.
  rewrite (valid_session_id_kept Sim.input Sim.strip Sim.uuid_UUID Sim.uuid_str Sim.uuid4
             (Sim.world ["2"; " 0F8FAD5B-D9CB-469F-A165-70867728950E "])
             "2" " 0F8FAD5B-D9CB-469F-A165-70867728950E "
             (Sim.mkState 0 [" 0F8FAD5B-D9CB-469F-A165-70867728950E "])
             (Sim.mkState 0 [])).
  - vm_compute. reflexivity.
  - vm_compute. reflexivity.
  - vm_compute. reflexivity.
  - vm_compute. reflexivity.
  - vm_compute. eexists. reflexivity.
Defined.

Lemma other_option_new_session_witness :
  (main_session Sim.input Sim.strip Sim.uuid_UUID Sim.uuid_str Sim.uuid4
     (Sim.world ["nueva"])).1 =
    Ok "3f2b8c1e-9a7d-4e5f-b6a1-c2d3e4f50617".
Proof.
  rewrite (other_option_new_session Sim.input Sim.strip Sim.uuid_UUID Sim.uuid_str
             Sim.uuid4 (Sim.world ["nueva"]) "nueva" (Sim.mkState 0 [])).
  - vm_compute. reflexivity.
  - vm_compute. reflexivity.
  - vm_compute. discriminate.
Defined.

Lemma main_raises_only_input_witness :
  exists prompt env0,
    (Sim.input prompt env0).1 = inl (mkExc "EOFError" "EOF when reading a line").
Proof.
  assert (main (Sim.chat_model [inr Sim.hola_reply]) [Sim.buscar_datapath Sim.kb]
            Sim.psycopg_ok Sim.input Sim.strip Sim.lower Sim.uuid_UUID Sim.uuid_str
            Sim.uuid4 5 (Sim.world ["1"; "Hola"]) =
          (Raise (mkExc "EOFError" "EOF when reading a line"),
           (main (Sim.chat_model [inr Sim.hola_reply]) [Sim.buscar_datapath Sim.kb]
              Sim.psycopg_ok Sim.input Sim.strip Sim.lower Sim.uuid_UUID Sim.uuid_str
              Sim.uuid4 5 (Sim.world ["1"; "Hola"])).2)) as Hrun
    by (vm_compute; reflexivity).
  exact (main_raises_only_input _ _ _ _ _ _ _ _ _ _ _ _ _ Hrun).
Defined.

Lemma main_loop_keeps_history_witness :
  rows Sim.session (table (Sim.world ["Hola"; "   "; "SALIR"])) `prefix_of`
    rows Sim.session (table Sim.conversacion.2).
Proof.
  assert (Sim.conversacion = (Sim.conversacion.1, Sim.conversacion.2)) as Hrun by apply surjective_pairing.
  exact (proj1 (main_loop_keeps_history _ _ _ _ _ _ _ _ _ _ _ Hrun)).
Defined.

Lemma main_loop_database_operations_witness :
  Forall (loop_op Sim.lower Sim.session)
    (pg_ops (events_since (Sim.world ["Hola"; "   "; "SALIR"]) Sim.conversacion.2)).
Proof.
  assert (Sim.conversacion = (Sim.conversacion.1, Sim.conversacion.2)) as Hrun by apply surjective_pairing.
  exact (main_loop_database_operations _ _ _ _ _ _ _ _ _ _ _ Hrun).
Defined.

Lemma exit_word_ends_conversation_witness :
  exists w',
    main_loop (Sim.chat_model []) [Sim.buscar_datapath Sim.kb] Sim.psycopg_ok
      Sim.input Sim.strip Sim.lower 1 Sim.session (Sim.world [" Exit "]) = (Ok true, w') /\
    table w' = table (Sim.world [" Exit "]).
Proof.
  destruct (exit_word_ends_conversation (Sim.chat_model []) [Sim.buscar_datapath Sim.kb]
              Sim.psycopg_ok Sim.input Sim.strip Sim.lower 0 Sim.session
              (Sim.world [" Exit "]) " Exit " (Sim.mkState 0 []))
    as (w' & Hrun & Htable & _).
  - vm_compute. reflexivity.
  - assert (Sim.lower (Sim.strip " Exit ") = "exit") as -> by (vm_compute; reflexivity).
    rewrite !elem_of_cons. right. left. reflexivity.
  - exists w'. split; [exact Hrun | exact Htable].
Defined.
